(** * Third-party-auth view decorators and the asset lock toggler

    A shallow embedding of

    - [common/djangoapps/third_party_auth/decorators.py]: the view
      decorators [allow_frame_from_whitelisted_url] (both definitions),
      [xframe_allow_whitelisted] and [tpa_hint_ends_existing_session];
    - [cms/djangoapps/contentstore/management/commands/toggle_assets_lock.py]:
      [Command.handle] and [toggle_course_assets_lock].

    Python byte strings are [string] (lists of 8-bit characters), dicts are
    [gmap]s, raised exceptions are the [Raise] outcome of [result], and the
    management command runs in a state-and-exception monad over the content
    store, the asset cache and the log. *)

From Stdlib Require Import Ascii String List Arith Lia Bool.
From stdpp Require Import base option list strings gmap fin_maps.

Local Open Scope string_scope.

(** ** Exceptions and outcomes *)

Inductive Exception :=
| ValueError (msg : string)
| InvalidKeyError (msg : string)
| CommandError (msg : string)
| NotFoundError (msg : string).

Inductive result (A : Type) :=
| Return (a : A)
| Raise (e : Exception).
Arguments Return {A} a.
Arguments Raise {A} e.

Definition rbind {A B} (r : result A) (k : A -> result B) : result B :=
  match r with
  | Return a => k a
  | Raise e => Raise e
  end.

(** ** Python string methods on byte strings *)

Module Py.

(** [c in s] for a one-character [c]. *)
Fixpoint contains (c : ascii) (s : string) : bool :=
  match s with
  | "" => false
  | String a s' => if Ascii.eqb a c then true else contains c s'
  end.

(** [s.find(c)]: the index of the first [c], [None] for Python's [-1]. *)
Fixpoint find (c : ascii) (s : string) : option nat :=
  match s with
  | "" => None
  | String a s' => if Ascii.eqb a c then Some 0 else S <$> find c s'
  end.

(** [s[:n]] *)
Fixpoint take (n : nat) (s : string) : string :=
  match n, s with
  | S n', String a s' => String a (take n' s')
  | _, _ => ""
  end.

(** [s[n:]] *)
Fixpoint drop (n : nat) (s : string) : string :=
  match n, s with
  | S n', String _ s' => drop n' s'
  | _, _ => s
  end.

(** [s.find(c, start)] *)
Definition find_from (c : ascii) (start : nat) (s : string) : option nat :=
  (fun i => start + i) <$> find c (drop start s).

(** [s.split(c, 1)] when [c in s]: the text before and after the first [c]. *)
Definition split1 (c : ascii) (s : string) : string * string :=
  match find c s with
  | Some i => (take i s, drop (S i) s)
  | None => (s, "")
  end.

(** [s.rfind(c)] *)
Fixpoint rfind (c : ascii) (s : string) : option nat :=
  match s with
  | "" => None
  | String a s' =>
      match rfind c s' with
      | Some i => Some (S i)
      | None => if Ascii.eqb a c then Some 0 else None
      end
  end.

(** [s.rstrip(c)] for a one-character [c]. *)
Fixpoint rstrip (c : ascii) (s : string) : string :=
  match s with
  | "" => ""
  | String a s' =>
      match rstrip c s' with
      | "" => if Ascii.eqb a c then "" else String a ""
      | r => String a r
      end
  end.

Definition is_upper (a : ascii) : bool :=
  Nat.leb 65 (nat_of_ascii a) && Nat.leb (nat_of_ascii a) 90.
Definition is_lower (a : ascii) : bool :=
  Nat.leb 97 (nat_of_ascii a) && Nat.leb (nat_of_ascii a) 122.
Definition is_digit (a : ascii) : bool :=
  Nat.leb 48 (nat_of_ascii a) && Nat.leb (nat_of_ascii a) 57.

Definition lower_char (a : ascii) : ascii :=
  if is_upper a then ascii_of_nat (nat_of_ascii a + 32) else a.

(** [s.lower()] *)
Fixpoint lower (s : string) : string :=
  match s with
  | "" => ""
  | String a s' => String (lower_char a) (lower s')
  end.

(** [all(p(c) for c in s)] *)
Fixpoint all (p : ascii -> bool) (s : string) : bool :=
  match s with
  | "" => true
  | String a s' => p a && all p s'
  end.

(** [sep.join(l)] *)
Fixpoint join (sep : string) (l : list string) : string :=
  match l with
  | [] => ""
  | [x] => x
  | x :: l' => x +:+ sep +:+ join sep l'
  end.

(** Truth value of a string: empty is false. *)
Definition truthy (s : string) : bool :=
  match s with "" => false | _ => true end.

(** [x in l] for a list of strings. *)
Definition in_list (x : string) (l : list string) : bool :=
  existsb (String.eqb x) l.

End Py.

(** ** The standard library's URL parser (CPython 2.7, module [urlparse])

    The result cache of [urlsplit] is a memo table and is left out; the
    [scheme] and [allow_fragments] arguments are at their defaults [''] and
    [True], as in every call of the decorators. *)

Module urlparse.

Record SplitResult := mkSplit {
  s_scheme : string; s_netloc : string; s_path : string;
  s_query : string; s_fragment : string }.

Record ParseResult := mkParse {
  scheme : string; netloc : string; path : string;
  params : string; query : string; fragment : string }.

Definition uses_netloc : list string :=
  ["ftp"; "http"; "gopher"; "nntp"; "telnet"; "imap"; "wais"; "file"; "mms";
   "https"; "shttp"; "snews"; "prospero"; "rtsp"; "rtspu"; "rsync"; "";
   "svn"; "svn+ssh"; "sftp"; "nfs"; "git"; "git+ssh"].

Definition uses_params : list string :=
  ["ftp"; "hdl"; "prospero"; "http"; "imap"; "https"; "shttp"; "rtsp";
   "rtspu"; "sip"; "sips"; "mms"; ""; "sftp"; "tel"].

(** [c in scheme_chars]: letters, digits and [+-.] *)
Definition scheme_char (a : ascii) : bool :=
  Py.is_lower a || Py.is_upper a || Py.is_digit a ||
  Ascii.eqb a "+" || Ascii.eqb a "-" || Ascii.eqb a ".".

(** [_splitnetloc(url, start)]: the earliest of ['/'], ['?'], ['#'] at or
    after [start] ends the network location. *)
Definition _splitnetloc (url : string) (start : nat) : string * string :=
  let step (delim : nat) (c : ascii) :=
    match Py.find_from c start url with
    | Some wdelim => Nat.min delim wdelim
    | None => delim
    end in
  let delim := fold_left step ["/"; "?"; "#"]%char (String.length url) in
  (Py.take (delim - start) (Py.drop start url), Py.drop delim url).

(** The bracket test of [urlsplit]: one of ['['], [']'] without the other. *)
Definition unbalanced_brackets (netloc : string) : bool :=
  (Py.contains "[" netloc && negb (Py.contains "]" netloc)) ||
  (Py.contains "]" netloc && negb (Py.contains "[" netloc)).

(** The part of [urlsplit] shared by its two paths: network location,
    fragment, query. *)
Definition split_rest (scheme url : string) : result SplitResult :=
  rbind
    (if String.eqb (Py.take 2 url) "//" then
       let '(netloc, url) := _splitnetloc url 2 in
       if unbalanced_brackets netloc
       then Raise (ValueError "Invalid IPv6 URL")
       else Return (netloc, url)
     else Return ("", url))
    (fun '(netloc, url) =>
       let '(url, fragment) :=
         if Py.contains "#" url then Py.split1 "#" url else (url, "") in
       let '(url, query) :=
         if Py.contains "?" url then Py.split1 "?" url else (url, "") in
       Return (mkSplit scheme netloc url query fragment)).

Definition urlsplit (url : string) : result SplitResult :=
  match Py.find ":" url with
  | Some (S i') =>
      let i := S i' in
      if String.eqb (Py.take i url) "http" then
        (* the common case *)
        split_rest (Py.lower (Py.take i url)) (Py.drop (S i) url)
      else if Py.all scheme_char (Py.take i url) then
        (* not a scheme when what follows is a port number *)
        let rest := Py.drop (S i) url in
        if negb (Py.truthy rest) || negb (Py.all Py.is_digit rest)
        then split_rest (Py.lower (Py.take i url)) rest
        else split_rest "" url
      else split_rest "" url
  | _ => split_rest "" url
  end.

Definition _splitparams (url : string) : string * string :=
  if Py.contains "/" url then
    match Py.rfind "/" url with
    | Some r =>
        match Py.find_from ";" r url with
        | Some i => (Py.take i url, Py.drop (S i) url)
        | None => (url, "")
        end
    | None => (url, "")
    end
  else
    match Py.find ";" url with
    | Some i => (Py.take i url, Py.drop (S i) url)
    | None => (url, "")
    end.

Definition urlparse (url : string) : result ParseResult :=
  rbind (urlsplit url) (fun t =>
    let '(url, params) :=
      if Py.in_list (s_scheme t) uses_params && Py.contains ";" (s_path t)
      then _splitparams (s_path t)
      else (s_path t, "") in
    Return (mkParse (s_scheme t) (s_netloc t) url params (s_query t) (s_fragment t))).

(** The [hostname] property of a parse result; [None] is Python's [None]. *)
Definition rsplit_at (netloc : string) : string :=
  match Py.rfind "@" netloc with
  | Some i => Py.drop (S i) netloc
  | None => netloc
  end.

Definition hostname (p : ParseResult) : option string :=
  let netloc := rsplit_at (netloc p) in
  if Py.contains "[" netloc && Py.contains "]" netloc then
    Some (Py.lower (Py.drop 1 (fst (Py.split1 "]" netloc))))
  else if Py.contains ":" netloc then
    Some (Py.lower (fst (Py.split1 ":" netloc)))
  else if String.eqb netloc "" then None
  else Some (Py.lower netloc).

Definition urlunsplit (scheme netloc url query fragment : string) : string :=
  let url :=
    if Py.truthy netloc ||
       (Py.truthy scheme && Py.in_list scheme uses_netloc &&
        negb (String.eqb (Py.take 2 url) "//"))
    then
      let url :=
        if Py.truthy url && negb (String.eqb (Py.take 1 url) "/")
        then "/" +:+ url else url in
      "//" +:+ netloc +:+ url
    else url in
  let url := if Py.truthy scheme then scheme +:+ ":" +:+ url else url in
  let url := if Py.truthy query then url +:+ "?" +:+ query else url in
  let url := if Py.truthy fragment then url +:+ "#" +:+ fragment else url in
  url.

Definition urlunparse (scheme netloc url params query fragment : string) : string :=
  let url := if Py.truthy params then url +:+ ";" +:+ params else url in
  urlunsplit scheme netloc url query fragment.

End urlparse.

(** ** The standard library's query-string encoder (CPython 2.7, [urllib]) *)

Module urllib.

Definition hexdigit (n : nat) : ascii :=
  match String.get n "0123456789ABCDEF" with
  | Some c => c
  | None => "0"%char
  end.

(** [c in always_safe]: letters, digits and [_.-] *)
Definition always_safe (a : ascii) : bool :=
  Py.is_upper a || Py.is_lower a || Py.is_digit a ||
  Ascii.eqb a "_" || Ascii.eqb a "." || Ascii.eqb a "-".

(** One entry of [quote]'s table: a safe character stays, any other
    becomes a percent sign and its code as two upper-case hex digits. *)
Definition quoter (safe : string) (a : ascii) : string :=
  if always_safe a || Py.contains a safe then String a ""
  else String "%" (String (hexdigit (nat_of_ascii a / 16))
                     (String (hexdigit (nat_of_ascii a mod 16)) "")).

(** [quote(s, safe)]: [''.join(map(quoter, s))] *)
Fixpoint quote (safe : string) (s : string) : string :=
  match s with
  | "" => ""
  | String a s' => quoter safe a +:+ quote safe s'
  end.

(** [s.replace(' ', '+')] *)
Fixpoint replace_space_plus (s : string) : string :=
  match s with
  | "" => ""
  | String a s' =>
      String (if Ascii.eqb a " " then "+"%char else a) (replace_space_plus s')
  end.

(** [quote_plus(s)] with its default [safe=''] *)
Definition quote_plus (s : string) : string :=
  if Py.contains " " s then replace_space_plus (quote " " s)
  else quote "" s.

(** [quote_plus] read character by character (proved equal to it below):
    a space becomes a plus sign, any other character its table entry. *)
Definition quote_plus_char (a : ascii) : string :=
  if Ascii.eqb a " " then "+" else quoter "" a.

Fixpoint quote_plus_chars (s : string) : string :=
  match s with
  | "" => ""
  | String a s' => quote_plus_char a +:+ quote_plus_chars s'
  end.

(** [urlencode(query)] on a sequence of pairs (or the items of a dict):
    [quote_plus(k) + '=' + quote_plus(v)], joined by ['&']. *)
Definition urlencode (query : list (string * string)) : string :=
  Py.join "&" (map (fun '(k, v) => quote_plus k +:+ "=" +:+ quote_plus v) query).

(** The decoder a receiver of the query string applies. *)
Definition hexval (a : ascii) : option nat :=
  let n := nat_of_ascii a in
  if Py.is_digit a then Some (n - 48)
  else if Nat.leb 65 n && Nat.leb n 70 then Some (n - 55)
  else if Nat.leb 97 n && Nat.leb n 102 then Some (n - 87)
  else None.

(** [unquote(s)]: a percent sign followed by two hex digits is decoded,
    any other percent sign is kept. *)
Fixpoint unquote (s : string) : string :=
  match s with
  | "" => ""
  | String a s1 =>
      match s1 with
      | String h (String l r) =>
          match Ascii.eqb a "%", hexval h, hexval l with
          | true, Some x, Some y => String (ascii_of_nat (16 * x + y)) (unquote r)
          | _, _, _ => String a (unquote s1)
          end
      | _ => String a (unquote s1)
      end
  end.

(** [s.replace('+', ' ')] *)
Fixpoint replace_plus_space (s : string) : string :=
  match s with
  | "" => ""
  | String a s' =>
      String (if Ascii.eqb a "+" then " "%char else a) (replace_plus_space s')
  end.

(** [unquote_plus(s)] *)
Definition unquote_plus (s : string) : string :=
  unquote (replace_plus_space s).

End urllib.

(** ** Requests, responses and configuration *)

(** A response: status, the case-insensitive header table (lower-cased name
    to the pair of the name as given and the value) and the body. *)
Record HttpResponse := mkResponse {
  status_code : nat;
  _headers : gmap string (string * string);
  content : string }.

(** [resp[header] = value] *)
Definition setitem (resp : HttpResponse) (header value : string) : HttpResponse :=
  {| status_code := status_code resp;
     _headers := <[Py.lower header := (header, value)]> (_headers resp);
     content := content resp |}.

(** [resp[header]], [None] when the header is not set. *)
Definition getitem (resp : HttpResponse) (header : string) : option string :=
  snd <$> _headers resp !! Py.lower header.

(** [redirect(url)]: a 302 response whose [Location] is [url]. *)
Definition redirect (url : string) : HttpResponse :=
  setitem {| status_code := 302; _headers := ∅; content := "" |} "Location" url.

Record User := mkUser { is_authenticated : bool }.

(** A request: [META], the query parameters [GET] (every key with the list
    of its values, in order), the user set by the authentication middleware
    and the path. *)
Record HttpRequest := mkRequest {
  META : gmap string string;
  GET : gmap string (list string);
  user : option User;
  path : string }.

(** [request.GET.get(key)]: the last value of [key], [None] without one. *)
Definition QueryDict_get (q : gmap string (list string)) (key : string) : option string :=
  match q !! key with
  | Some l => last l
  | None => None
  end.

Record Features := mkFeatures { ENABLE_THIRD_PARTY_AUTH : bool }.

Record Settings := mkSettings {
  FEATURES : Features;
  THIRD_PARTY_AUTH_FRAME_ALLOWED_FROM_URL : list string }.

(** Modelled from the spec: the SSO provider configuration of
    [third_party_auth.models] and [third_party_auth.provider], read-only
    lookups exposing a sign-on URL, a hostname with an enabled flag, and a
    drop-existing-session flag. *)
Record SAMLProviderData := mkSAML { sso_url : string }.

Record LTIProviderConfig := mkLTI { lti_hostname : string; enabled : bool }.

Record SSOProvider := mkProvider {
  provider_id : string;
  drop_existing_session : bool }.

(** What a request is served against: the settings, the rows of
    [SAMLProviderData.objects], the rows of
    [LTIProviderConfig.objects.current_set()], the provider registry
    ([Registry.get] returns a provider, [None], or raises), the URL
    resolver and [request.build_absolute_uri]. *)
Record Env := mkEnv {
  settings : Settings;
  SAMLProviderData_objects : list SAMLProviderData;
  LTIProviderConfig_current_set : list LTIProviderConfig;
  Registry_get : string -> result (option SSOProvider);
  reverse : string -> string;
  build_absolute_uri : HttpRequest -> string -> string }.

(** A view maps a request to a response. A decorator below is the function
    [wrapped_view] (or [inner]) it returns: [wraps] only copies the name and
    docstring of the view onto it. *)
Definition View := HttpRequest -> HttpResponse.

(** ** The frame decorators *)

(** The referrer rebuilt without parameters, query string, fragment and
    trailing slashes. *)
Definition referer_url (parsed_url : urlparse.ParseResult) : string :=
  urlparse.urlunparse
    (urlparse.scheme parsed_url) (urlparse.netloc parsed_url)
    (Py.rstrip "/" (urlparse.path parsed_url)) "" "" "".

(** The list comprehension [[url.rstrip('/') for url in sso_urls]]: a loop
    appending to an initially empty list. *)
Definition comprehension {A B} (f : A -> B) (l : list A) : list B :=
  fold_left (fun acc x => (acc ++ [f x])%list) l [].

(** The first definition of [allow_frame_from_whitelisted_url], shadowed by
    the second. *)
Module Shadowed.

Definition allow_frame_from_whitelisted_url (env : Env) (view_func : View)
    (request : HttpRequest) : result HttpResponse :=
  let resp := view_func request in
  let x_frame_option := "DENY" in
  let content_security_policy := "frame-ancestors 'none'" in
  rbind
    (if ENABLE_THIRD_PARTY_AUTH (FEATURES (settings env)) then
       match META request !! "HTTP_REFERER" with
       | Some referer =>
           rbind (urlparse.urlparse referer) (fun parsed_url =>
             let referer_url := referer_url parsed_url in
             let sso_urls := map sso_url (SAMLProviderData_objects env) in
             let sso_urls := comprehension (Py.rstrip "/") sso_urls in
             if Py.in_list referer_url sso_urls then
               let allowed_urls :=
                 Py.join " " (THIRD_PARTY_AUTH_FRAME_ALLOWED_FROM_URL (settings env)) in
               Return ("ALLOW-FROM " +:+ allowed_urls,
                       "frame-ancestors " +:+ allowed_urls)
             else Return (x_frame_option, content_security_policy))
       | None => Return (x_frame_option, content_security_policy)
       end
     else Return (x_frame_option, content_security_policy))
    (fun '(x_frame_option, content_security_policy) =>
       let resp := setitem resp "X-Frame-Options" x_frame_option in
       let resp := setitem resp "Content-Security-Policy" content_security_policy in
       Return resp).

End Shadowed.

(** The second, effective definition. *)
Definition allow_frame_from_whitelisted_url (env : Env) (view_func : View)
    (request : HttpRequest) : result HttpResponse :=
  let resp := view_func request in
  let x_frame_option := "DENY" in
  let content_security_policy := "frame-ancestors 'none'" in
  rbind
    (if ENABLE_THIRD_PARTY_AUTH (FEATURES (settings env)) then
       match META request !! "HTTP_REFERER" with
       | Some referer =>
           rbind (urlparse.urlparse referer) (fun parsed_url =>
             let referer_url := referer_url parsed_url in
             let sso_urls := map sso_url (SAMLProviderData_objects env) in
             let sso_urls := map (fun u => Py.rstrip "/" u) sso_urls in
             if Py.in_list referer_url sso_urls then
               let allowed_urls :=
                 Py.join " " (THIRD_PARTY_AUTH_FRAME_ALLOWED_FROM_URL (settings env)) in
               Return ("ALLOW-FROM " +:+ allowed_urls,
                       "frame-ancestors " +:+ allowed_urls)
             else Return (x_frame_option, content_security_policy))
       | None => Return (x_frame_option, content_security_policy)
       end
     else Return (x_frame_option, content_security_policy))
    (fun '(x_frame_option, content_security_policy) =>
       let resp := setitem resp "X-Frame-Options" x_frame_option in
       let resp := setitem resp "Content-Security-Policy" content_security_policy in
       Return resp).

(** [LTIProviderConfig.objects.current_set().filter(lti_hostname=hostname,
    enabled=True).exists()]; no row has a null hostname, so a [None]
    hostname matches none. *)
Definition lti_exists (env : Env) (hostname : option string) : bool :=
  existsb
    (fun c =>
       match hostname with
       | Some h => String.eqb (lti_hostname c) h && enabled c
       | None => false
       end)
    (LTIProviderConfig_current_set env).

Definition xframe_allow_whitelisted (env : Env) (view_func : View)
    (request : HttpRequest) : result HttpResponse :=
  let resp := view_func request in
  let x_frame_option := "DENY" in
  rbind
    (if ENABLE_THIRD_PARTY_AUTH (FEATURES (settings env)) then
       match META request !! "HTTP_REFERER" with
       | Some referer =>
           rbind (urlparse.urlparse referer) (fun parsed_url =>
             let hostname := urlparse.hostname parsed_url in
             if lti_exists env hostname then Return "ALLOW"
             else Return x_frame_option)
       | None => Return x_frame_option
       end
     else Return x_frame_option)
    (fun x_frame_option =>
       Return (setitem resp "X-Frame-Options" x_frame_option)).

(** ** The SSO-hint decorator *)

(** [str(v)] of a query parameter that may be [None]. *)
Definition str_opt (v : option string) : string :=
  match v with Some s => s | None => "None" end.

(** Truth value of a query parameter: [None] and [''] are false. *)
Definition truthy_opt (v : option string) : bool :=
  match v with Some s => Py.truthy s | None => false end.

(** [try: Registry.get(provider_id=...) except ValueError: None] *)
Definition get_or_none (r : result (option SSOProvider)) : result (option SSOProvider) :=
  match r with
  | Raise (ValueError _) => Return None
  | _ => r
  end.

Definition tpa_hint_ends_existing_session (env : Env) (func : View)
    (request : HttpRequest) : result HttpResponse :=
  let provider_id := QueryDict_get (GET request) "tpa_hint" in
  let decorator_already_processed :=
    bool_decide (QueryDict_get (GET request) "session_cleared" = Some "yes") in
  rbind
    (if truthy_opt provider_id && negb decorator_already_processed then
       match user request with
       | Some u =>
           if is_authenticated u
           then get_or_none (Registry_get env (str_opt provider_id))
           else Return None
       | None => Return None
       end
     else Return None)
    (fun sso_provider =>
       match sso_provider with
       | Some p =>
           if drop_existing_session p then
             Return (redirect (
               build_absolute_uri env request (reverse env "logout") +:+ "?" +:+
               urllib.urlencode
                 [("redirect_url",
                   path request +:+ "?" +:+
                   urllib.urlencode
                     [("tpa_hint", str_opt provider_id);
                      ("session_cleared", "yes")])]))
           else Return (func request)
       | None => Return (func request)
       end).

(** ** The asset lock toggler *)

(** A course key, in its serialized form. *)
Definition CourseKey := string.

(** Modelled from the spec: an asset key is a course-scoped identifier
    ([opaque_keys] is not part of the sources at hand). *)
Record AssetKey := mkAssetKey { course_key : CourseKey; name : string }.

#[global] Instance AssetKey_eq_dec : EqDecision AssetKey.
Proof. solve_decision. Defined.

#[global] Program Instance AssetKey_countable : Countable AssetKey :=
  inj_countable' (fun k => (course_key k, name k))
                 (fun p => mkAssetKey p.1 p.2) _.
Next Obligation. by intros []. Qed.

Inductive AttrVal :=
| VBool (b : bool)
| VStr (s : string).

#[global] Instance AttrVal_eq_dec : EqDecision AttrVal.
Proof. solve_decision. Defined.

(** An asset as [get_all_content_for_course] returns it: the key under
    ['asset_key'] and the other attributes. *)
Record Asset := mkAsset { asset_key : AssetKey; attrs : gmap string AttrVal }.

Record Course := mkCourse { id : CourseKey }.

(** The effects of the command, in the order they happen. *)
Inductive Event :=
| EvSetAttr (k : AssetKey) (attr : string) (v : AttrVal)
| EvDelCached (k : AssetKey)
| EvLog (msg : string).

(** Modelled from the spec: the content store holds one record of mutable
    attributes per asset key, the cache one entry per asset key, the module
    store lists the courses ([xmodule.contentstore], [xmodule.modulestore]
    and [contentserver.caching] are not part of the sources at hand).
    [trace] records the effects so far. *)
Record World := mkWorld {
  content_store : gmap AssetKey (gmap string AttrVal);
  cache : gmap AssetKey string;
  courses : list Course;
  trace : list Event }.

(** Commands: a state transformer that returns or raises; what was done
    before an exception stays done. *)
Definition M (A : Type) := World -> result A * World.

Definition ret {A} (a : A) : M A := fun w => (Return a, w).
Definition raise {A} (e : Exception) : M A := fun w => (Raise e, w).
Definition bind {A B} (m : M A) (k : A -> M B) : M B :=
  fun w =>
    match m w with
    | (Return a, w') => k a w'
    | (Raise e, w') => (Raise e, w')
    end.

Notation "x <- m ;; k" := (bind m (fun x => k))
  (at level 100, m at next level, right associativity).
Notation "m ;;; k" := (bind m (fun _ => k))
  (at level 100, right associativity).

(** [for x in l: body(x)] *)
Fixpoint for_each {A} (l : list A) (body : A -> M unit) : M unit :=
  match l with
  | [] => ret tt
  | x :: l' => body x ;;; for_each l' body
  end.

Definition emit (e : Event) (w : World) : World :=
  {| content_store := content_store w; cache := cache w;
     courses := courses w; trace := (trace w ++ [e])%list |}.

(** Modelled from the spec: [content_store.get_all_content_for_course]
    returns the assets under the course and their number. *)
Definition assets_of (course_key0 : CourseKey)
    (store : gmap AssetKey (gmap string AttrVal)) : list Asset :=
  (fun p => mkAsset p.1 p.2) <$>
    filter (fun p => course_key p.1 = course_key0) (map_to_list store).

Definition get_all_content_for_course (course_key0 : CourseKey) : M (list Asset * nat) :=
  fun w =>
    let assets := assets_of course_key0 (content_store w) in
    (Return (assets, length assets), w).

(** Modelled from the spec: [content_store.set_attr] sets one attribute of
    the asset with the given key, and fails when there is none. *)
Definition set_attr (k : AssetKey) (attr : string) (v : AttrVal) : M unit :=
  fun w =>
    match content_store w !! k with
    | Some a =>
        (Return tt,
         emit (EvSetAttr k attr v)
           {| content_store := <[k := <[attr := v]> a]> (content_store w);
              cache := cache w; courses := courses w; trace := trace w |})
    | None => (Raise (NotFoundError (name k)), w)
    end.

(** Modelled from the spec: [del_cached_content] evicts the cache entry
    keyed by the asset key. *)
Definition del_cached_content (k : AssetKey) : M unit :=
  fun w =>
    (Return tt,
     emit (EvDelCached k)
       {| content_store := content_store w; cache := delete k (cache w);
          courses := courses w; trace := trace w |}).

(** Modelled from the spec: [modulestore().get_courses()] is the course
    listing. *)
Definition get_courses : M (list Course) :=
  fun w => (Return (courses w), w).

Definition logger_info (msg : string) : M unit :=
  fun w => (Return tt, emit (EvLog msg) w).

Definition toggle_course_assets_lock (course_key0 : CourseKey) (locked : bool) : M unit :=
  r <- get_all_content_for_course course_key0 ;;
  let assets := r.1 in
  for_each assets (fun asset =>
    set_attr (asset_key asset) "locked" (VBool locked) ;;;
    del_cached_content (asset_key asset)) ;;;
  logger_info ("Assets for course: " +:+ course_key0 +:+ " successfully " +:+
               (if locked then "locked" else "unlocked")).

(** The parsed command line: [course_id] is [None] without [--course-id];
    [locked] is [None] when the key is missing from the options. *)
Record Options := mkOptions {
  opt_course_id : option string;
  opt_locked : option bool }.

(** [CourseKey.from_string] is taken as given. *)
Definition Parser := string -> result CourseKey.

Definition handle (from_string : Parser) (options : Options) : M unit :=
  let course_id := opt_course_id options in
  let locked := default true (opt_locked options) in
  if truthy_opt course_id then
    course_key0 <-
      (match from_string (str_opt course_id) with
       | Raise (InvalidKeyError _) =>
           raise (CommandError ("Invalid course_id: '" +:+ str_opt course_id +:+ "'."))
       | Raise e => raise e
       | Return k => ret k
       end) ;;
    toggle_course_assets_lock course_key0 locked
  else
    courses0 <- get_courses ;;
    for_each courses0 (fun course => toggle_course_assets_lock (id course) locked).

(** The effects of the loop of [toggle_course_assets_lock] over [assets]:
    for each asset the attribute is set, then its cache entry evicted. *)
Definition lock_events (locked : bool) (assets : list Asset) : list Event :=
  flat_map
    (fun asset => [EvSetAttr (asset_key asset) "locked" (VBool locked);
                   EvDelCached (asset_key asset)])
    assets.

Definition lock_message (course_key0 : CourseKey) (locked : bool) : string :=
  "Assets for course: " +:+ course_key0 +:+ " successfully " +:+
  (if locked then "locked" else "unlocked").

(** ** Sample configuration, views and requests *)

Definition sample_registry (pid : string) : result (option SSOProvider) :=
  if negb (Py.contains "-" pid) then Raise (ValueError "Invalid provider_id")
  else if String.eqb pid "saml-idp" then Return (Some (mkProvider "saml-idp" true))
  else if String.eqb pid "oa2-google" then Return (Some (mkProvider "oa2-google" false))
  else Return None.

Definition sample_env (flag : bool) : Env :=
  {| settings :=
       {| FEATURES := {| ENABLE_THIRD_PARTY_AUTH := flag |};
          THIRD_PARTY_AUTH_FRAME_ALLOWED_FROM_URL :=
            ["https://portal.example.com"; "https://lms.example.com"] |};
     SAMLProviderData_objects := [mkSAML "http://idp.example.com/sso/"];
     LTIProviderConfig_current_set :=
       [mkLTI "old.example.com" false; mkLTI "lti.example.com" true];
     Registry_get := sample_registry;
     reverse := fun view_name => "/" +:+ view_name;
     build_absolute_uri := fun _ location => "https://courses.example.com" +:+ location |}.

Definition sample_view : View :=
  fun _ =>
    {| status_code := 200;
       _headers := {[ "content-type" := ("Content-Type", "text/html") ]};
       content := "<html></html>" |}.

Definition request_from (referer : option string) : HttpRequest :=
  {| META := match referer with
             | Some r => {[ "HTTP_REFERER" := r ]}
             | None => ∅
             end;
     GET := ∅; user := None; path := "/login" |}.

Definition request_with (query : list (string * list string)) (u : option User) : HttpRequest :=
  {| META := ∅; GET := list_to_map query; user := u; path := "/login" |}.

(** ** Sample courses and assets *)

Definition sample_from_string : Parser :=
  fun s =>
    if String.prefix "course-v1:" s then Return s
    else Raise (InvalidKeyError s).

Definition course_a : CourseKey := "course-v1:edX+A+2017".
Definition course_b : CourseKey := "course-v1:edX+B+2017".

Definition asset_doc (display : string) (locked : bool) : gmap string AttrVal :=
  {[ "displayname" := VStr display; "locked" := VBool locked ]}.

Definition sample_world : World :=
  {| content_store :=
       {[ mkAssetKey course_a "logo.png" := asset_doc "logo" true;
          mkAssetKey course_a "notes.pdf" := asset_doc "notes" false;
          mkAssetKey course_b "intro.mp4" := asset_doc "intro" false ]};
     cache :=
       {[ mkAssetKey course_a "logo.png" := "PNG";
          mkAssetKey course_b "intro.mp4" := "MP4" ]};
     courses := [mkCourse course_a; mkCourse course_b];
     trace := [] |}.

(** The characters [quote_plus] can produce: letters, digits, [_.-], the
    percent sign and the plus sign. *)
Definition quoted_char (a : ascii) : bool :=
  urllib.always_safe a || Ascii.eqb a "%" || Ascii.eqb a "+".

(** A registry whose lookup fails with an exception other than ValueError. *)
Definition broken_env : Env :=
  {| settings := settings (sample_env true);
     SAMLProviderData_objects := [];
     LTIProviderConfig_current_set := [];
     Registry_get := fun _ => Raise (NotFoundError "registry unavailable");
     reverse := reverse (sample_env true);
     build_absolute_uri := build_absolute_uri (sample_env true) |}.

(** The sample world with its course listing reversed and one course
    listed twice. *)
Definition sample_world_relisted : World :=
  {| content_store := content_store sample_world;
     cache := cache sample_world;
     courses := [mkCourse course_b; mkCourse course_a; mkCourse course_b];
     trace := [] |}.

(** ** Well-formed referrers *)

(** No character of [s] is one of [cs]. *)
Definition none_of (cs s : string) : bool :=
  Py.all (fun a => negb (Py.contains a cs)) s.

(** The components of an absolute http or https URL without parameters:
    a non-empty network location free of delimiters and brackets, a path
    that is empty or starts with a slash, no later delimiter in an earlier
    component. *)
Definition wf_components (scheme netloc path query fragment : string) : bool :=
  (String.eqb scheme "http" || String.eqb scheme "https") &&
  Py.truthy netloc && none_of "/?#[]" netloc &&
  (negb (Py.truthy path) || String.eqb (Py.take 1 path) "/") &&
  none_of "?#;" path &&
  none_of "#" query.

(** [sep + s] for a non-empty [s], nothing for an empty one. *)
Definition opt_part (sep s : string) : string :=
  if Py.truthy s then sep +:+ s else "".

(** The configuration with other [SAMLProviderData] rows. *)
Definition with_saml (env : Env) (rows : list SAMLProviderData) : Env :=
  {| settings := settings env;
     SAMLProviderData_objects := rows;
     LTIProviderConfig_current_set := LTIProviderConfig_current_set env;
     Registry_get := Registry_get env;
     reverse := reverse env;
     build_absolute_uri := build_absolute_uri env |}.

(** The two header values the whitelisted-URL decorator sets for a
    rebuilt referrer: the allow pair when the flag is on and the referrer is
    a stripped sign-on URL, the deny pair otherwise. *)
Definition chosen_headers (env : Env) (referer_url0 : string) : string * string :=
  if ENABLE_THIRD_PARTY_AUTH (FEATURES (settings env)) &&
     Py.in_list referer_url0
       (map (fun u => Py.rstrip "/" u) (map sso_url (SAMLProviderData_objects env)))
  then
    let allowed_urls :=
      Py.join " " (THIRD_PARTY_AUTH_FRAME_ALLOWED_FROM_URL (settings env)) in
    ("ALLOW-FROM " +:+ allowed_urls, "frame-ancestors " +:+ allowed_urls)
  else ("DENY", "frame-ancestors 'none'").
(** * Properties *)

(** ** The library models on sample inputs *)

Example urlparse_ex1 :
  urlparse.urlparse "http://idp.example.com/sso/?x=1#f" =
  Return (urlparse.mkParse "http" "idp.example.com" "/sso/" "" "x=1" "f").
Proof. reflexivity. Qed.

Example urlparse_ex2 :
  urlparse.urlparse "http://[" = Raise (ValueError "Invalid IPv6 URL").
Proof. reflexivity. Qed.

Example referer_url_ex :
  rbind (urlparse.urlparse "HTTP://idp.example.com/sso//;jsessionid=1?x=1#top")
        (fun parsed_url => Return (referer_url parsed_url)) =
  Return "http://idp.example.com/sso".
Proof. reflexivity. Qed.

Example hostname_ex :
  rbind (urlparse.urlparse "https://user@LTI.Example.com:8443/launch")
        (fun parsed_url => Return (urlparse.hostname parsed_url)) =
  Return (Some "lti.example.com").
Proof. reflexivity. Qed.

Example quote_plus_ex :
  urllib.quote_plus "/login?tpa_hint=saml-a b" = "%2Flogin%3Ftpa_hint%3Dsaml-a+b".
Proof. reflexivity. Qed.

Example unquote_plus_ex :
  urllib.unquote_plus "%2Flogin%3Ftpa_hint%3Dsaml-a+b" = "/login?tpa_hint=saml-a b".
Proof. reflexivity. Qed.

(** The parser raises nothing but ValueError, and only on a network
    location with a bracket that has no partner. *)
Lemma split_rest_raises (scheme url : string) (e : Exception) :
  urlparse.split_rest scheme url = Raise e →
  e = ValueError "Invalid IPv6 URL" ∧
  String.eqb (Py.take 2 url) "//" = true ∧
  urlparse.unbalanced_brackets (urlparse._splitnetloc url 2).1 = true.
Proof.
  unfold urlparse.split_rest.
  destruct (String.eqb (Py.take 2 url) "//").
  - destruct (urlparse._splitnetloc url 2) as [netloc rest]. cbn [fst].
    destruct (urlparse.unbalanced_brackets netloc); cbn [rbind].
    + intros [= Heq]. by subst.
    + repeat match goal with
             | |- context [if ?b then _ else _] => destruct b
             | |- context [let '(_, _) := ?p in _] => destruct p
             end; discriminate.
  - cbn [rbind].
    repeat match goal with
           | |- context [if ?b then _ else _] => destruct b
           | |- context [let '(_, _) := ?p in _] => destruct p
           end; discriminate.
Qed.

Lemma urlparse_raises (url : string) (e : Exception) :
  urlparse.urlparse url = Raise e → e = ValueError "Invalid IPv6 URL".
Proof.
  unfold urlparse.urlparse.
  destruct (urlparse.urlsplit url) as [t|e'] eqn:Hsplit; simpl.
  - destruct (_ && _); [destruct (urlparse._splitparams _)|]; discriminate.
  - intros [= Heq]. subst e'. unfold urlparse.urlsplit in Hsplit.
    repeat match type of Hsplit with
           | context [match ?x with _ => _ end] => destruct x
           end;
      by apply split_rest_raises in Hsplit as [? _].
Qed.

(** ** Header table *)

Lemma lower_xfo : Py.lower "X-Frame-Options" = "x-frame-options".
Proof. reflexivity. Qed.

Lemma lower_csp : Py.lower "Content-Security-Policy" = "content-security-policy".
Proof. reflexivity. Qed.

Lemma getitem_setitem_eq resp h v : getitem (setitem resp h v) h = Some v.
Proof. unfold getitem, setitem; simpl. by rewrite lookup_insert_eq. Qed.

Lemma getitem_setitem_ne resp h h' v :
  Py.lower h ≠ Py.lower h' → getitem (setitem resp h v) h' = getitem resp h'.
Proof. intros Hne. unfold getitem, setitem; simpl. by rewrite lookup_insert_ne. Qed.

Lemma headers_setitem_ne resp h v (k : string) :
  k ≠ Py.lower h → _headers (setitem resp h v) !! k = _headers resp !! k.
Proof. intros Hne. unfold setitem; simpl. by rewrite lookup_insert_ne. Qed.

(** ** The list comprehension and [map] *)

Lemma comprehension_from {A B} (f : A -> B) (l : list A) (acc : list B) :
  fold_left (fun acc x => (acc ++ [f x])%list) l acc = (acc ++ map f l)%list.
Proof.
  revert acc. induction l as [|x l IH]; intros acc; simpl.
  - by rewrite app_nil_r.
  - rewrite IH. by rewrite <- app_assoc.
Qed.

Lemma comprehension_map {A B} (f : A -> B) (l : list A) :
  comprehension f l = map f l.
Proof. unfold comprehension. by rewrite comprehension_from. Qed.

(** C10: the shadowed first definition of [allow_frame_from_whitelisted_url]
    (list comprehension) and the effective second one ([map]) give the same
    outcome on every configuration, view and request: the same response,
    hence the same X-Frame-Options and Content-Security-Policy headers, or
    the same exception. *)
Theorem allow_frame_definitions_agree (env : Env) (view_func : View) (request : HttpRequest) :
  Shadowed.allow_frame_from_whitelisted_url env view_func request =
  allow_frame_from_whitelisted_url env view_func request.
Proof.
  unfold Shadowed.allow_frame_from_whitelisted_url, allow_frame_from_whitelisted_url.
  by rewrite comprehension_map.
Qed.

(** C5: with the third-party-auth feature flag disabled, both frame
    decorators return the wrapped view's own response with X-Frame-Options
    set to DENY on it (the whitelisted-URL decorator also sets
    Content-Security-Policy to frame-ancestors 'none'), whatever the request
    and its referrer are. *)
Theorem flag_disabled_deny (env : Env) (view_func : View) (request : HttpRequest) :
  ENABLE_THIRD_PARTY_AUTH (FEATURES (settings env)) = false →
  (allow_frame_from_whitelisted_url env view_func request =
     Return (setitem (setitem (view_func request) "X-Frame-Options" "DENY")
                     "Content-Security-Policy" "frame-ancestors 'none'") ∧
   ∃ resp, allow_frame_from_whitelisted_url env view_func request = Return resp ∧
           getitem resp "X-Frame-Options" = Some "DENY") ∧
  (xframe_allow_whitelisted env view_func request =
     Return (setitem (view_func request) "X-Frame-Options" "DENY") ∧
   ∃ resp, xframe_allow_whitelisted env view_func request = Return resp ∧
           getitem resp "X-Frame-Options" = Some "DENY").
Proof.
  intros Hflag. split.
  - unfold allow_frame_from_whitelisted_url. rewrite Hflag. simpl.
    split; [reflexivity|].
    eexists. split; [reflexivity|].
    rewrite getitem_setitem_ne by (rewrite lower_xfo, lower_csp; discriminate).
    apply getitem_setitem_eq.
  - unfold xframe_allow_whitelisted. rewrite Hflag. simpl.
    split; [reflexivity|].
    eexists. split; [reflexivity|]. apply getitem_setitem_eq.
Qed.

Lemma flag_disabled_deny_witness :
  (allow_frame_from_whitelisted_url (sample_env false) sample_view
     (request_from (Some "http://idp.example.com/sso")) =
     Return (setitem (setitem (sample_view (request_from (Some "http://idp.example.com/sso")))
                              "X-Frame-Options" "DENY")
                     "Content-Security-Policy" "frame-ancestors 'none'") ∧
   ∃ resp, allow_frame_from_whitelisted_url (sample_env false) sample_view
             (request_from (Some "http://idp.example.com/sso")) = Return resp ∧
           getitem resp "X-Frame-Options" = Some "DENY") ∧
  (xframe_allow_whitelisted (sample_env false) sample_view
     (request_from (Some "http://idp.example.com/sso")) =
     Return (setitem (sample_view (request_from (Some "http://idp.example.com/sso")))
                     "X-Frame-Options" "DENY") ∧
   ∃ resp, xframe_allow_whitelisted (sample_env false) sample_view
             (request_from (Some "http://idp.example.com/sso")) = Return resp ∧
           getitem resp "X-Frame-Options" = Some "DENY").
Proof. apply flag_disabled_deny. reflexivity. Defined.

(** ** The hostname-based decorator *)

(** C9: the hostname-based decorator changes the X-Frame-Options entry of
    the header table and nothing else: whenever it returns, the status, the
    body and every other header (Content-Security-Policy among them) are
    those of the wrapped view's response; it fails to return only with the
    flag enabled, on a referrer the URL parser rejects. *)
Theorem xframe_only_sets_xfo (env : Env) (view_func : View) (request : HttpRequest) :
  match xframe_allow_whitelisted env view_func request with
  | Return resp =>
      status_code resp = status_code (view_func request) ∧
      content resp = content (view_func request) ∧
      (∀ k : string, k ≠ "x-frame-options" →
         _headers resp !! k = _headers (view_func request) !! k) ∧
      getitem resp "Content-Security-Policy" =
        getitem (view_func request) "Content-Security-Policy"
  | Raise e =>
      ENABLE_THIRD_PARTY_AUTH (FEATURES (settings env)) = true ∧
      ∃ referer, META request !! "HTTP_REFERER" = Some referer ∧
                 urlparse.urlparse referer = Raise e
  end.
Proof.
  assert (Hframe : ∀ v,
    status_code (setitem (view_func request) "X-Frame-Options" v) =
      status_code (view_func request) ∧
    content (setitem (view_func request) "X-Frame-Options" v) =
      content (view_func request) ∧
    (∀ k : string, k ≠ "x-frame-options" →
       _headers (setitem (view_func request) "X-Frame-Options" v) !! k =
       _headers (view_func request) !! k) ∧
    getitem (setitem (view_func request) "X-Frame-Options" v) "Content-Security-Policy" =
      getitem (view_func request) "Content-Security-Policy").
  { intros v. repeat split.
    - intros k Hk. apply headers_setitem_ne. by rewrite lower_xfo.
    - apply getitem_setitem_ne. rewrite lower_xfo, lower_csp. discriminate. }
  unfold xframe_allow_whitelisted.
  destruct (ENABLE_THIRD_PARTY_AUTH (FEATURES (settings env))) eqn:Hflag; simpl;
    [|apply Hframe].
  destruct (META request !! "HTTP_REFERER") as [referer|] eqn:Href; simpl;
    [|apply Hframe].
  destruct (urlparse.urlparse referer) as [parsed_url|e] eqn:Hparse; simpl.
  - destruct (lti_exists env (urlparse.hostname parsed_url)); simpl; apply Hframe.
  - split; [done|]. by exists referer.
Qed.

Lemma xframe_only_sets_xfo_witness :
  ∃ resp,
    xframe_allow_whitelisted (sample_env true) sample_view
      (request_from (Some "https://lti.example.com/launch?id=7")) = Return resp ∧
    getitem resp "X-Frame-Options" = Some "ALLOW" ∧
    content resp = "<html></html>" ∧
    _headers resp !! "content-type" = Some ("Content-Type", "text/html").
Proof.
  pose proof (xframe_only_sets_xfo (sample_env true) sample_view
                (request_from (Some "https://lti.example.com/launch?id=7"))) as Hframe.
  destruct (xframe_allow_whitelisted _ _ _) as [resp|e] eqn:Hrun; [|discriminate Hrun].
  destruct Hframe as (_ & Hcontent & Hheaders & _).
  exists resp. split; [reflexivity|].
  split; [by injection Hrun as <-|].
  split; [exact Hcontent|].
  rewrite Hheaders by discriminate. reflexivity.
Defined.

Lemma lti_exists_spec (env : Env) (hostname : option string) :
  lti_exists env hostname = true ↔
  ∃ c h, c ∈ LTIProviderConfig_current_set env ∧ hostname = Some h ∧
         lti_hostname c = h ∧ enabled c = true.
Proof.
  unfold lti_exists. rewrite existsb_exists. split.
  - intros (c & Hin & Hc). destruct hostname as [h|]; [|done].
    apply andb_true_iff in Hc as [Heq Hen]. apply String.eqb_eq in Heq.
    exists c, h. by rewrite list_elem_of_In.
  - intros (c & h & Hin & -> & Heq & Hen). exists c.
    rewrite <- list_elem_of_In. split; [done|].
    apply andb_true_iff. split; [by apply String.eqb_eq | done].
Qed.

(** Where the URL parser accepts the referrer (or there is none, or the
    flag is off), the decorator returns and sets ALLOW exactly for a
    referrer whose hostname is that of an enabled LTI configuration. *)
Lemma xframe_allow_iff (env : Env) (view_func : View) (request : HttpRequest) :
  (∀ referer e, META request !! "HTTP_REFERER" = Some referer →
                ENABLE_THIRD_PARTY_AUTH (FEATURES (settings env)) = true →
                urlparse.urlparse referer ≠ Raise e) →
  ∃ resp v,
    xframe_allow_whitelisted env view_func request = Return resp ∧
    getitem resp "X-Frame-Options" = Some v ∧ (v = "ALLOW" ∨ v = "DENY") ∧
    (v = "ALLOW" ↔
     ENABLE_THIRD_PARTY_AUTH (FEATURES (settings env)) = true ∧
     ∃ referer parsed_url c h,
       META request !! "HTTP_REFERER" = Some referer ∧
       urlparse.urlparse referer = Return parsed_url ∧
       urlparse.hostname parsed_url = Some h ∧
       c ∈ LTIProviderConfig_current_set env ∧
       lti_hostname c = h ∧ enabled c = true).
Proof.
  intros Hok. unfold xframe_allow_whitelisted.
  destruct (ENABLE_THIRD_PARTY_AUTH (FEATURES (settings env))) eqn:Hflag; simpl.
  2:{ eexists _, "DENY". rewrite getitem_setitem_eq.
      split; [done|]. split; [done|]. split; [by right|].
      split; [done|]. by intros [? _]. }
  destruct (META request !! "HTTP_REFERER") as [referer|] eqn:Href; simpl.
  2:{ eexists _, "DENY". rewrite getitem_setitem_eq.
      split; [done|]. split; [done|]. split; [by right|].
      split; [done|]. by intros (_ & ? & ? & ? & ? & ? & _). }
  destruct (urlparse.urlparse referer) as [parsed_url|e] eqn:Hparse; simpl.
  2:{ by destruct (Hok referer e). }
  destruct (lti_exists env (urlparse.hostname parsed_url)) eqn:Hex; simpl.
  - eexists _, "ALLOW". rewrite getitem_setitem_eq.
    split; [done|]. split; [done|]. split; [by left|].
    split; [|done]. intros _. split; [done|].
    apply lti_exists_spec in Hex as (c & h & Hin & Hh & Heq & Hen).
    by exists referer, parsed_url, c, h.
  - eexists _, "DENY". rewrite getitem_setitem_eq.
    split; [done|]. split; [done|]. split; [by right|].
    split; [done|].
    intros (_ & referer' & p' & c & h & Hr & Hp & Hh & Hin & Heq & Hen).
    assert (lti_exists env (urlparse.hostname parsed_url) = true); [|congruence].
    apply lti_exists_spec. exists c, h.
    replace parsed_url with p' by congruence. done.
Qed.

(** C6: with the flag enabled, an exception of the URL parser on the
    referrer leaves the hostname-based decorator uncaught: no response is
    returned, none with X-Frame-Options DENY. The referrer [http://[] is
    such a one: the parser raises ValueError on it. *)
Theorem xframe_raises_on_malformed_referer (env : Env) (view_func : View)
    (request : HttpRequest) (referer : string) (e : Exception) :
  ENABLE_THIRD_PARTY_AUTH (FEATURES (settings env)) = true →
  META request !! "HTTP_REFERER" = Some referer →
  urlparse.urlparse referer = Raise e →
  xframe_allow_whitelisted env view_func request = Raise e.
Proof.
  intros Hflag Href Hparse. unfold xframe_allow_whitelisted.
  rewrite Hflag, Href. simpl. rewrite Hparse. reflexivity.
Qed.

Lemma xframe_raises_on_malformed_referer_witness :
  xframe_allow_whitelisted (sample_env true) sample_view
    (request_from (Some "http://[")) = Raise (ValueError "Invalid IPv6 URL").
Proof.
  apply (xframe_raises_on_malformed_referer _ _ _ "http://["); reflexivity.
Defined.

(** ** The whitelisted-URL decorator *)

Lemma in_list_spec (x : string) (l : list string) :
  Py.in_list x l = true ↔ x ∈ l.
Proof.
  unfold Py.in_list. rewrite existsb_exists, list_elem_of_In. split.
  - intros (y & Hin & Heq). apply String.eqb_eq in Heq. by subst.
  - intros Hin. exists x. split; [done|]. apply String.eqb_refl.
Qed.

(** The two header values the decorator chooses between. *)
Lemma allow_frame_outcome (env : Env) (view_func : View) (request : HttpRequest)
    (resp : HttpResponse) :
  allow_frame_from_whitelisted_url env view_func request = Return resp →
  let allowed_urls :=
    Py.join " " (THIRD_PARTY_AUTH_FRAME_ALLOWED_FROM_URL (settings env)) in
  (getitem resp "X-Frame-Options" = Some ("ALLOW-FROM " +:+ allowed_urls) ∧
   getitem resp "Content-Security-Policy" = Some ("frame-ancestors " +:+ allowed_urls) ∧
   ENABLE_THIRD_PARTY_AUTH (FEATURES (settings env)) = true ∧
   ∃ referer parsed_url d,
     META request !! "HTTP_REFERER" = Some referer ∧
     urlparse.urlparse referer = Return parsed_url ∧
     d ∈ SAMLProviderData_objects env ∧
     referer_url parsed_url = Py.rstrip "/" (sso_url d)) ∨
  (getitem resp "X-Frame-Options" = Some "DENY" ∧
   getitem resp "Content-Security-Policy" = Some "frame-ancestors 'none'" ∧
   ¬ (ENABLE_THIRD_PARTY_AUTH (FEATURES (settings env)) = true ∧
      ∃ referer parsed_url d,
        META request !! "HTTP_REFERER" = Some referer ∧
        urlparse.urlparse referer = Return parsed_url ∧
        d ∈ SAMLProviderData_objects env ∧
        referer_url parsed_url = Py.rstrip "/" (sso_url d))).
Proof.
  assert (Hget : ∀ x c,
    getitem (setitem (setitem (view_func request) "X-Frame-Options" x)
                     "Content-Security-Policy" c) "X-Frame-Options" = Some x ∧
    getitem (setitem (setitem (view_func request) "X-Frame-Options" x)
                     "Content-Security-Policy" c) "Content-Security-Policy" = Some c).
  { intros x c. split; [|apply getitem_setitem_eq].
    rewrite getitem_setitem_ne by (rewrite lower_xfo, lower_csp; discriminate).
    apply getitem_setitem_eq. }
  intros Hrun allowed_urls. unfold allow_frame_from_whitelisted_url in Hrun.
  destruct (ENABLE_THIRD_PARTY_AUTH (FEATURES (settings env))) eqn:Hflag; simpl in Hrun.
  2:{ injection Hrun as <-. right. destruct (Hget "DENY" "frame-ancestors 'none'").
      repeat split; [done..|]. by intros [? _]. }
  destruct (META request !! "HTTP_REFERER") as [referer|] eqn:Href; simpl in Hrun.
  2:{ injection Hrun as <-. right. destruct (Hget "DENY" "frame-ancestors 'none'").
      repeat split; [done..|]. by intros (_ & ? & ? & ? & ? & _). }
  destruct (urlparse.urlparse referer) as [parsed_url|e] eqn:Hparse; simpl in Hrun; [|done].
  destruct (Py.in_list _ _) eqn:Hin; simpl in Hrun; injection Hrun as <-.
  - left. destruct (Hget ("ALLOW-FROM " +:+ allowed_urls) ("frame-ancestors " +:+ allowed_urls)).
    repeat split; [done..|].
    apply in_list_spec in Hin.
    rewrite map_map in Hin. apply list_elem_of_fmap in Hin as (d & Heq & Hd).
    by exists referer, parsed_url, d.
  - right. destruct (Hget "DENY" "frame-ancestors 'none'").
    repeat split; [done..|].
    intros (_ & referer' & p' & d & Hr & Hp & Hd & Heq).
    assert (Py.in_list (referer_url parsed_url)
              (map (λ u, Py.rstrip "/" u) (map sso_url (SAMLProviderData_objects env))) = true);
      [|congruence].
    apply in_list_spec. rewrite map_map. apply list_elem_of_fmap.
    exists d. split; [|done]. replace parsed_url with p' by congruence. done.
Qed.

(** The decorator returns unless the flag is on and the parser rejects the
    referrer. *)
Lemma allow_frame_returns (env : Env) (view_func : View) (request : HttpRequest) :
  match allow_frame_from_whitelisted_url env view_func request with
  | Return _ => True
  | Raise e =>
      ENABLE_THIRD_PARTY_AUTH (FEATURES (settings env)) = true ∧
      ∃ referer, META request !! "HTTP_REFERER" = Some referer ∧
                 urlparse.urlparse referer = Raise e
  end.
Proof.
  unfold allow_frame_from_whitelisted_url.
  destruct (ENABLE_THIRD_PARTY_AUTH (FEATURES (settings env))); simpl; [|done].
  destruct (META request !! "HTTP_REFERER") as [referer|] eqn:Href; simpl; [|done].
  destruct (urlparse.urlparse referer) as [p|e] eqn:Hp; simpl.
  - by destruct (Py.in_list _ _).
  - split; [done|]. by exists referer.
Qed.

Example allow_frame_whitelisted :
  ∃ resp,
    allow_frame_from_whitelisted_url (sample_env true) sample_view
      (request_from (Some "http://idp.example.com/sso/?SAMLRequest=abc#top")) = Return resp ∧
    getitem resp "X-Frame-Options" =
      Some "ALLOW-FROM https://portal.example.com https://lms.example.com" ∧
    getitem resp "Content-Security-Policy" =
      Some "frame-ancestors https://portal.example.com https://lms.example.com".
Proof. eexists. split; [reflexivity|]. split; reflexivity. Qed.

Example allow_frame_other_referer :
  ∃ resp,
    allow_frame_from_whitelisted_url (sample_env true) sample_view
      (request_from (Some "http://evil.example.com/sso")) = Return resp ∧
    getitem resp "X-Frame-Options" = Some "DENY" ∧
    getitem resp "Content-Security-Policy" = Some "frame-ancestors 'none'".
Proof. eexists. split; [reflexivity|]. split; reflexivity. Qed.

(** C1: with the flag enabled, an exception of the URL parser on the
    referrer leaves the whitelisted-URL decorator uncaught: no response is
    returned, none with X-Frame-Options DENY and Content-Security-Policy
    frame-ancestors 'none'. The referrer [http://[] is such a one: the
    parser raises ValueError on it. *)
Theorem allow_frame_raises_on_malformed_referer (env : Env) (view_func : View)
    (request : HttpRequest) (referer : string) (e : Exception) :
  ENABLE_THIRD_PARTY_AUTH (FEATURES (settings env)) = true →
  META request !! "HTTP_REFERER" = Some referer →
  urlparse.urlparse referer = Raise e →
  allow_frame_from_whitelisted_url env view_func request = Raise e.
Proof.
  intros Hflag Href Hparse. unfold allow_frame_from_whitelisted_url.
  rewrite Hflag, Href. simpl. rewrite Hparse. reflexivity.
Qed.

Lemma allow_frame_raises_on_malformed_referer_witness :
  allow_frame_from_whitelisted_url (sample_env true) sample_view
    (request_from (Some "http://[")) = Raise (ValueError "Invalid IPv6 URL").
Proof.
  apply (allow_frame_raises_on_malformed_referer _ _ _ "http://["); reflexivity.
Defined.

(** ** Query-string encoding *)

Lemma replace_space_plus_app (s t : string) :
  urllib.replace_space_plus (s +:+ t) =
  urllib.replace_space_plus s +:+ urllib.replace_space_plus t.
Proof. induction s as [|a s IH]; simpl; [done|]. by rewrite IH. Qed.

Lemma quoter_space_char (a : ascii) :
  urllib.replace_space_plus (urllib.quoter " " a) = urllib.quote_plus_char a.
Proof. destruct a as [[] [] [] [] [] [] [] []]; reflexivity. Qed.

Lemma quote_space_chars (s : string) :
  urllib.replace_space_plus (urllib.quote " " s) = urllib.quote_plus_chars s.
Proof.
  induction s as [|a s IH]; simpl; [done|].
  by rewrite replace_space_plus_app, quoter_space_char, IH.
Qed.

Lemma quote_nospace_chars (s : string) :
  Py.contains " " s = false → urllib.quote "" s = urllib.quote_plus_chars s.
Proof.
  induction s as [|a s IH]; simpl; [done|].
  destruct (Ascii.eqb a " ") eqn:Ha; [done|]. intros Hs.
  rewrite IH by done. unfold urllib.quote_plus_char. by rewrite Ha.
Qed.

Lemma quote_plus_chars_eq (s : string) :
  urllib.quote_plus s = urllib.quote_plus_chars s.
Proof.
  unfold urllib.quote_plus. destruct (Py.contains " " s) eqn:Hs.
  - apply quote_space_chars.
  - by apply quote_nospace_chars.
Qed.

Lemma unquote_other (a : ascii) (s : string) :
  Ascii.eqb a "%" = false →
  urllib.unquote (String a s) = String a (urllib.unquote s).
Proof.
  intros Ha. destruct s as [|h [|l r]]; simpl; rewrite ?Ha; reflexivity.
Qed.

Lemma unquote_plus_char (a : ascii) (rest : string) :
  urllib.unquote (urllib.replace_plus_space (urllib.quote_plus_char a +:+ rest)) =
  String a (urllib.unquote (urllib.replace_plus_space rest)).
Proof.
  destruct a as [[] [] [] [] [] [] [] []];
    vm_compute (urllib.quote_plus_char _);
    cbn [String.append urllib.replace_plus_space Ascii.eqb Bool.eqb];
    first [ by apply unquote_other | reflexivity ].
Qed.

(** Decoding undoes [quote_plus]. *)
Lemma unquote_quote_plus (s : string) :
  urllib.unquote_plus (urllib.quote_plus s) = s.
Proof.
  rewrite quote_plus_chars_eq. unfold urllib.unquote_plus.
  induction s as [|a s IH]; simpl; [done|].
  by rewrite unquote_plus_char, IH.
Qed.

Lemma string_app_assoc (s t u : string) : (s +:+ t) +:+ u = s +:+ t +:+ u.
Proof.
  induction s as [|a s IH]; [done|].
  change (String a ((s +:+ t) +:+ u) = String a (s +:+ t +:+ u)).
  by rewrite IH.
Qed.

Lemma quoter_safe (a : ascii) :
  urllib.always_safe a = true → urllib.quote_plus_char a = String a "".
Proof. destruct a as [[] [] [] [] [] [] [] []]; intros H; try reflexivity; discriminate H. Qed.

(** A string of letters, digits and [_.-] is its own encoding. *)
Lemma quote_plus_safe (s : string) :
  Py.all urllib.always_safe s = true → urllib.quote_plus s = s.
Proof.
  rewrite quote_plus_chars_eq.
  induction s as [|a s IH]; simpl; [done|].
  intros [Ha Hs]%andb_true_iff. by rewrite quoter_safe, IH.
Qed.

(** ** The SSO-hint decorator *)

Lemma urlencode_redirect_url (v : string) :
  urllib.urlencode [("redirect_url", v)] = "redirect_url=" +:+ urllib.quote_plus v.
Proof. reflexivity. Qed.

Lemma urlencode_hint (pid : string) :
  urllib.urlencode [("tpa_hint", pid); ("session_cleared", "yes")] =
  "tpa_hint=" +:+ urllib.quote_plus pid +:+ "&session_cleared=yes".
Proof.
  unfold urllib.urlencode; simpl.
  change (urllib.quote_plus "tpa_hint") with "tpa_hint".
  change (urllib.quote_plus "session_cleared") with "session_cleared".
  change (urllib.quote_plus "yes") with "yes".
  by rewrite !string_app_assoc.
Qed.

(** C7: a hint naming a provider id that the registry does not know
    (the lookup returns none, or raises ValueError) never makes the
    decorator raise or redirect: the outcome is the wrapped view's
    response. *)
Theorem unknown_provider_passes_through (env : Env) (func : View)
    (request : HttpRequest) (pid : string) :
  QueryDict_get (GET request) "tpa_hint" = Some pid →
  (Registry_get env pid = Return None ∨
   ∃ msg, Registry_get env pid = Raise (ValueError msg)) →
  tpa_hint_ends_existing_session env func request = Return (func request).
Proof.
  intros Hhint Hlookup. unfold tpa_hint_ends_existing_session.
  rewrite Hhint. simpl.
  destruct (Py.truthy pid && negb _); simpl; [|done].
  destruct (user request) as [u|]; simpl; [|done].
  destruct (is_authenticated u); simpl; [|done].
  destruct Hlookup as [-> | [msg ->]]; done.
Qed.

Lemma unknown_provider_passes_through_witness :
  tpa_hint_ends_existing_session (sample_env true) sample_view
    (request_with [("tpa_hint", ["saml-unknown"])] (Some (mkUser true))) =
  Return (sample_view (request_with [("tpa_hint", ["saml-unknown"])] (Some (mkUser true)))).
Proof.
  apply (unknown_provider_passes_through _ _ _ "saml-unknown").
  - reflexivity.
  - left. reflexivity.
Defined.

Example malformed_provider_passes_through :
  tpa_hint_ends_existing_session (sample_env true) sample_view
    (request_with [("tpa_hint", ["nodash"])] (Some (mkUser true))) =
  Return (sample_view (request_with [("tpa_hint", ["nodash"])] (Some (mkUser true)))).
Proof. reflexivity. Qed.

(** C2: a request with a non-empty hint, no session_cleared marker, an
    authenticated user and a registered provider that drops existing
    sessions is answered by a redirect to the logout endpoint whose
    redirect_url parameter decodes to the request path followed by
    [tpa_hint=<the same provider id, encoded>] and [session_cleared=yes];
    a request whose session_cleared marker is [yes] is answered by the
    wrapped view, whatever its hint and user. *)
Theorem tpa_hint_redirects_once (env : Env) (func : View) (request : HttpRequest) :
  (∀ pid u p,
     QueryDict_get (GET request) "tpa_hint" = Some pid → pid ≠ "" →
     QueryDict_get (GET request) "session_cleared" = None →
     user request = Some u → is_authenticated u = true →
     Registry_get env pid = Return (Some p) → drop_existing_session p = true →
     ∃ redirect_url,
       tpa_hint_ends_existing_session env func request =
         Return (redirect (build_absolute_uri env request (reverse env "logout") +:+
                           "?redirect_url=" +:+ urllib.quote_plus redirect_url)) ∧
       urllib.unquote_plus (urllib.quote_plus redirect_url) = redirect_url ∧
       redirect_url =
         path request +:+ "?tpa_hint=" +:+ urllib.quote_plus pid +:+ "&session_cleared=yes" ∧
       urllib.unquote_plus (urllib.quote_plus pid) = pid) ∧
  (QueryDict_get (GET request) "session_cleared" = Some "yes" →
   tpa_hint_ends_existing_session env func request = Return (func request)).
Proof.
  split.
  - intros pid u p Hhint Hpid Hmarker Huser Hauth Hlookup Hdrop.
    eexists. split; [|split; [apply unquote_quote_plus|split; [reflexivity|apply unquote_quote_plus]]].
    unfold tpa_hint_ends_existing_session.
    rewrite Hhint, Hmarker, Huser, Hauth. simpl.
    assert (Py.truthy pid = true) as -> by (by destruct pid).
    simpl. rewrite Hlookup. simpl. rewrite Hdrop.
    rewrite urlencode_redirect_url, urlencode_hint. reflexivity.
  - intros Hmarker. unfold tpa_hint_ends_existing_session.
    rewrite Hmarker. simpl. by rewrite andb_false_r.
Qed.

Lemma tpa_hint_redirects_once_witness :
  (∃ redirect_url,
     tpa_hint_ends_existing_session (sample_env true) sample_view
       (request_with [("tpa_hint", ["saml-idp"])] (Some (mkUser true))) =
       Return (redirect ("https://courses.example.com/logout" +:+
                         "?redirect_url=" +:+ urllib.quote_plus redirect_url)) ∧
     urllib.unquote_plus (urllib.quote_plus redirect_url) = redirect_url ∧
     redirect_url =
       "/login" +:+ "?tpa_hint=" +:+ urllib.quote_plus "saml-idp" +:+ "&session_cleared=yes" ∧
     urllib.unquote_plus (urllib.quote_plus "saml-idp") = "saml-idp") ∧
  tpa_hint_ends_existing_session (sample_env true) sample_view
    (request_with [("tpa_hint", ["saml-idp"]); ("session_cleared", ["yes"])]
                  (Some (mkUser true))) =
  Return (sample_view
            (request_with [("tpa_hint", ["saml-idp"]); ("session_cleared", ["yes"])]
                          (Some (mkUser true)))).
Proof.
  split.
  - apply (proj1 (tpa_hint_redirects_once (sample_env true) sample_view
                    (request_with [("tpa_hint", ["saml-idp"])] (Some (mkUser true))))
             "saml-idp" (mkUser true) (mkProvider "saml-idp" true));
      first [ reflexivity | discriminate ].
  - apply (proj2 (tpa_hint_redirects_once (sample_env true) sample_view
                    (request_with [("tpa_hint", ["saml-idp"]); ("session_cleared", ["yes"])]
                                  (Some (mkUser true))))).
    reflexivity.
Defined.

Example tpa_hint_redirect_location :
  ∃ resp,
    tpa_hint_ends_existing_session (sample_env true) sample_view
      (request_with [("tpa_hint", ["saml-idp"])] (Some (mkUser true))) = Return resp ∧
    status_code resp = 302 ∧
    getitem resp "Location" =
      Some ("https://courses.example.com/logout?redirect_url=" +:+
            "%2Flogin%3Ftpa_hint%3Dsaml-idp%26session_cleared%3Dyes").
Proof. eexists. split; [reflexivity|]. split; reflexivity. Qed.

Example tpa_hint_no_redirect_when_not_dropping :
  tpa_hint_ends_existing_session (sample_env true) sample_view
    (request_with [("tpa_hint", ["oa2-google"])] (Some (mkUser true))) =
  Return (sample_view (request_with [("tpa_hint", ["oa2-google"])] (Some (mkUser true)))).
Proof. reflexivity. Qed.

(** ** The asset lock toggler *)

Lemma elem_of_assets_of (a : Asset) (ck : CourseKey)
    (store : gmap AssetKey (gmap string AttrVal)) :
  a ∈ assets_of ck store ↔
  course_key (asset_key a) = ck ∧ store !! asset_key a = Some (attrs a).
Proof.
  unfold assets_of. rewrite list_elem_of_fmap. split.
  - intros ([k d] & -> & Hin). apply list_elem_of_filter in Hin as [Hck Hin].
    apply elem_of_map_to_list in Hin. done.
  - intros [Hck Hlook]. exists (asset_key a, attrs a). split; [by destruct a|].
    apply list_elem_of_filter. split; [done|]. by apply elem_of_map_to_list.
Qed.

Lemma elem_of_asset_keys (k : AssetKey) (ck : CourseKey)
    (store : gmap AssetKey (gmap string AttrVal)) :
  k ∈ asset_key <$> assets_of ck store ↔ course_key k = ck ∧ is_Some (store !! k).
Proof.
  rewrite list_elem_of_fmap. split.
  - intros (a & -> & Ha). apply elem_of_assets_of in Ha as [? ?]. eauto.
  - intros [Hck [d Hd]]. exists (mkAsset k d). split; [done|].
    by apply elem_of_assets_of.
Qed.

Lemma asset_keys_NoDup (ck : CourseKey) (store : gmap AssetKey (gmap string AttrVal)) :
  NoDup (asset_key <$> assets_of ck store).
Proof.
  unfold assets_of. rewrite <- list_fmap_compose.
  apply (sublist_NoDup _ ((map_to_list store).*1)); [apply NoDup_fst_map_to_list|].
  apply fmap_sublist, sublist_filter.
Qed.

Lemma set_locked_twice (b b' : bool) (o : option (gmap string AttrVal)) :
  <["locked" := VBool b']> <$> (<["locked" := VBool b]> <$> o) =
  <["locked" := VBool b']> <$> o.
Proof. destruct o as [d|]; simpl; [|done]. by rewrite insert_insert_eq. Qed.

Lemma bind_return {A B} (m : M A) (k : A -> M B) (w w1 : World) (a : A) :
  m w = (Return a, w1) → bind m k w = k a w1.
Proof. intros H. unfold bind. by rewrite H. Qed.

Lemma bind_raise {A B} (m : M A) (k : A -> M B) (w w1 : World) (e : Exception) :
  m w = (Raise e, w1) → bind m k w = (Raise e, w1).
Proof. intros H. unfold bind. by rewrite H. Qed.

Ltac cons_contra Hcons :=
  exfalso;
  match goal with
  | H : ¬ _ ∈ _ <$> _ :: _ |- _ => apply H, Hcons; by auto
  | H : _ ∈ _ <$> _ :: _ |- _ => apply Hcons in H; by destruct H
  end.

(** The loop over a snapshot of assets that are all in the store: it runs
    to the end, sets the attribute of each, evicts each, in that order. *)
Lemma lock_loop (locked : bool) (l : list Asset) (w : World) :
  (∀ a, a ∈ l → is_Some (content_store w !! asset_key a)) →
  ∃ w',
    for_each l (fun asset =>
      set_attr (asset_key asset) "locked" (VBool locked) ;;;
      del_cached_content (asset_key asset)) w = (Return tt, w') ∧
    (∀ k, content_store w' !! k =
          if decide (k ∈ asset_key <$> l)
          then <["locked" := VBool locked]> <$> content_store w !! k
          else content_store w !! k) ∧
    (∀ k, cache w' !! k =
          if decide (k ∈ asset_key <$> l) then None else cache w !! k) ∧
    courses w' = courses w ∧
    trace w' = (trace w ++ lock_events locked l)%list.
Proof.
  revert w. induction l as [|x l IH]; intros w Hin.
  - exists w. split; [done|].
    split; [intros k; case_decide as Hk; [by apply elem_of_nil in Hk|done]|].
    split; [intros k; case_decide as Hk; [by apply elem_of_nil in Hk|done]|].
    split; [done|]. simpl. by rewrite app_nil_r.
  - destruct (Hin x) as [d Hd]; [by left|].
    set (w1 := emit (EvDelCached (asset_key x))
      {| content_store := <[asset_key x := <["locked" := VBool locked]> d]> (content_store w);
         cache := delete (asset_key x) (cache w);
         courses := courses w;
         trace := (trace w ++ [EvSetAttr (asset_key x) "locked" (VBool locked)])%list |}).
    destruct (IH w1) as (w' & Hrun & Hstore & Hcache & Hcourses & Htrace).
    { intros a Ha. simpl.
      destruct (decide (asset_key x = asset_key a)) as [<-|Hne].
      - rewrite lookup_insert_eq. eauto.
      - rewrite lookup_insert_ne by done. apply Hin. by right. }
    exists w'. split.
    { simpl. unfold bind at 1. unfold bind at 1. unfold set_attr. rewrite Hd.
      unfold del_cached_content. simpl. exact Hrun. }
    assert (Hcons : ∀ k, k ∈ asset_key <$> x :: l ↔
                         k = asset_key x ∨ k ∈ asset_key <$> l).
    { intros k. rewrite fmap_cons. apply elem_of_cons. }
    split; [|split; [|split]].
    + intros k. rewrite Hstore. unfold w1, emit. cbn [content_store].
      destruct (decide (k = asset_key x)) as [->|Hne].
      * rewrite lookup_insert_eq, Hd.
        repeat case_decide; simpl; rewrite ?insert_insert_eq; try done;
          cons_contra Hcons.
      * rewrite lookup_insert_ne by done.
        repeat case_decide; try done; cons_contra Hcons.
    + intros k. rewrite Hcache. unfold w1, emit. cbn [cache].
      destruct (decide (k = asset_key x)) as [->|Hne].
      * rewrite lookup_delete_eq.
        repeat case_decide; try done; cons_contra Hcons.
      * rewrite lookup_delete_ne by done.
        repeat case_decide; try done; cons_contra Hcons.
    + by rewrite Hcourses.
    + rewrite Htrace. simpl. by rewrite <- !app_assoc.
Qed.

(** One run of [toggle_course_assets_lock]: it returns, every asset of the
    course gets the attribute, every such asset is evicted, nothing else
    changes, and the effects are the loop's followed by the log line. *)
Lemma toggle_spec (ck : CourseKey) (locked : bool) (w : World) :
  ∃ w',
    toggle_course_assets_lock ck locked w = (Return tt, w') ∧
    (∀ k, content_store w' !! k =
          if decide (course_key k = ck)
          then <["locked" := VBool locked]> <$> content_store w !! k
          else content_store w !! k) ∧
    (∀ k, cache w' !! k =
          if decide (course_key k = ck ∧ is_Some (content_store w !! k))
          then None else cache w !! k) ∧
    courses w' = courses w ∧
    trace w' = (trace w ++ lock_events locked (assets_of ck (content_store w)) ++
                [EvLog (lock_message ck locked)])%list.
Proof.
  destruct (lock_loop locked (assets_of ck (content_store w)) w)
    as (w1 & Hrun & Hstore & Hcache & Hcourses & Htrace).
  { intros a [_ Ha]%elem_of_assets_of. eauto. }
  exists (emit (EvLog (lock_message ck locked)) w1). split.
  { unfold toggle_course_assets_lock.
    erewrite bind_return by reflexivity. cbn [fst].
    erewrite bind_return by exact Hrun. reflexivity. }
  split; [|split; [|split]]; cbn [emit content_store cache courses trace].
  - intros k. rewrite Hstore.
    destruct (decide (course_key k = ck)) as [Hck|Hck].
    + case_decide as Hk; [done|].
      destruct (content_store w !! k) as [d|] eqn:Hd; [|done].
      exfalso. apply Hk, elem_of_asset_keys. eauto.
    + case_decide as Hk; [|done]. by apply elem_of_asset_keys in Hk as [? _].
  - intros k. rewrite Hcache.
    repeat case_decide; try done; exfalso.
    + by apply elem_of_asset_keys in H.
    + by apply H, elem_of_asset_keys.
  - done.
  - by rewrite Htrace, <- app_assoc.
Qed.

Lemma toggle_keeps_keys (ck : CourseKey) (locked : bool) (w w' : World) (k : AssetKey) :
  (∀ k, content_store w' !! k =
        if decide (course_key k = ck)
        then <["locked" := VBool locked]> <$> content_store w !! k
        else content_store w !! k) →
  is_Some (content_store w' !! k) ↔ is_Some (content_store w !! k).
Proof.
  intros Hstore. rewrite Hstore. case_decide; [|done]. by rewrite fmap_is_Some.
Qed.

(** The loop of [handle] over the course listing. *)
Lemma toggle_all_spec (locked : bool) (cs : list Course) (w : World) :
  ∃ w',
    for_each cs (fun course => toggle_course_assets_lock (id course) locked) w =
      (Return tt, w') ∧
    (∀ k, content_store w' !! k =
          if decide (course_key k ∈ id <$> cs)
          then <["locked" := VBool locked]> <$> content_store w !! k
          else content_store w !! k) ∧
    (∀ k, cache w' !! k =
          if decide (course_key k ∈ id <$> cs ∧ is_Some (content_store w !! k))
          then None else cache w !! k) ∧
    courses w' = courses w.
Proof.
  revert w. induction cs as [|c cs IH]; intros w.
  - exists w. split; [done|].
    split; [intros k; case_decide as Hk; [by apply elem_of_nil in Hk|done]|].
    split; [|done].
    intros k; case_decide as Hk; [|done]. destruct Hk as [Hk _]. by apply elem_of_nil in Hk.
  - destruct (toggle_spec (id c) locked w) as (w1 & Hrun1 & Hstore1 & Hcache1 & Hcourses1 & _).
    destruct (IH w1) as (w' & Hrun & Hstore & Hcache & Hcourses).
    assert (Hcons : ∀ k, k ∈ id <$> c :: cs ↔ k = id c ∨ k ∈ id <$> cs).
    { intros k. rewrite fmap_cons. apply elem_of_cons. }
    exists w'. split.
    { cbn [for_each]. erewrite bind_return by exact Hrun1. exact Hrun. }
    split; [|split].
    + intros k. rewrite Hstore, Hstore1.
      repeat case_decide; rewrite ?set_locked_twice; try done; cons_contra Hcons.
    + intros k. rewrite Hcache, Hcache1.
      pose proof (toggle_keeps_keys (id c) locked w w1 k Hstore1) as Hkeys.
      pose proof (Hcons (course_key k)) as Hk.
      repeat case_decide; try done; exfalso; tauto.
    + by rewrite Hcourses.
Qed.

(** *** An unparseable course id *)

(** C3, as amended: for every non-empty course id that
    [CourseKey.from_string] rejects, the command raises the command error
    naming it and leaves the world as it was: no attribute set, no cache
    entry evicted, no effect at all. An empty course id is never parsed:
    the command does on every world exactly what it does when
    [--course-id] is omitted. *)
Theorem invalid_course_id_stops (from_string : Parser) (options : Options) (w : World) :
  (∀ course_id msg,
     opt_course_id options = Some course_id →
     course_id ≠ "" →
     from_string course_id = Raise (InvalidKeyError msg) →
     handle from_string options w =
       (Raise (CommandError ("Invalid course_id: '" +:+ course_id +:+ "'.")), w)) ∧
  (opt_course_id options = Some "" →
   handle from_string options w =
     handle from_string
       {| opt_course_id := None; opt_locked := opt_locked options |} w ∧
   handle from_string options w =
     for_each (courses w)
       (fun course => toggle_course_assets_lock (id course)
                        (default true (opt_locked options))) w).
Proof.
  split.
  - intros course_id msg Hid Hne Hparse. unfold handle. rewrite Hid. simpl.
    assert (Py.truthy course_id = true) as -> by (by destruct course_id).
    rewrite Hparse. reflexivity.
  - intros Hid. unfold handle. rewrite Hid. split; reflexivity.
Qed.

Lemma invalid_course_id_stops_witness :
  handle sample_from_string (mkOptions (Some "not a course") None) sample_world =
    (Raise (CommandError ("Invalid course_id: '" +:+ "not a course" +:+ "'.")),
     sample_world) ∧
  handle sample_from_string (mkOptions (Some "") (Some false)) sample_world =
    handle sample_from_string (mkOptions None (Some false)) sample_world.
Proof.
  split.
  - apply (proj1 (invalid_course_id_stops sample_from_string
                    (mkOptions (Some "not a course") None) sample_world)
             "not a course" "not a course");
      first [ reflexivity | discriminate ].
  - apply (proj2 (invalid_course_id_stops sample_from_string
                    (mkOptions (Some "") (Some false)) sample_world)).
    reflexivity.
Defined.

(** C3 as stated fails at the empty course id: the parser rejects it, yet
    the command raises nothing and locks the assets of every listed
    course. *)
Lemma empty_course_id_toggles_all :
  sample_from_string "" = Raise (InvalidKeyError "") ∧
  (handle sample_from_string (mkOptions (Some "") (Some true)) sample_world).1 = Return tt ∧
  content_store sample_world !! mkAssetKey course_b "intro.mp4" =
    Some (asset_doc "intro" false) ∧
  content_store
    (handle sample_from_string (mkOptions (Some "") (Some true)) sample_world).2
    !! mkAssetKey course_b "intro.mp4" = Some (asset_doc "intro" true) ∧
  cache sample_world !! mkAssetKey course_b "intro.mp4" = Some "MP4" ∧
  cache
    (handle sample_from_string (mkOptions (Some "") (Some true)) sample_world).2
    !! mkAssetKey course_b "intro.mp4" = None.
Proof. repeat split; vm_compute; reflexivity. Qed.

(** *** Locking, then unlocking, one course *)

(** C4, as amended: on a course with N assets (N distinct keys), locking
    returns, sets the locked attribute of each of the N assets to true and
    leaves their other attributes, evicts the N cache entries of their keys,
    touches no other asset or cache entry, and each eviction comes right
    after the mutation of the same asset; unlocking afterwards returns and
    sets each locked attribute to false. The store is then the store before
    locking provided every asset of the course was unlocked before. *)
Theorem lock_then_unlock (ck : CourseKey) (w : World) :
  let assets := assets_of ck (content_store w) in
  ∃ w1 w2,
    toggle_course_assets_lock ck true w = (Return tt, w1) ∧
    toggle_course_assets_lock ck false w1 = (Return tt, w2) ∧
    (∀ a, a ∈ assets →
       content_store w1 !! asset_key a = Some (<["locked" := VBool true]> (attrs a)) ∧
       cache w1 !! asset_key a = None) ∧
    (∀ k, k ∉ asset_key <$> assets →
       content_store w1 !! k = content_store w !! k ∧ cache w1 !! k = cache w !! k) ∧
    trace w1 = (trace w ++ lock_events true assets ++ [EvLog (lock_message ck true)])%list ∧
    NoDup (asset_key <$> assets) ∧
    (∀ a, a ∈ assets →
       content_store w2 !! asset_key a = Some (<["locked" := VBool false]> (attrs a))) ∧
    ((∀ a, a ∈ assets → attrs a !! "locked" = Some (VBool false)) →
     content_store w2 = content_store w).
Proof.
  intros assets.
  destruct (toggle_spec ck true w) as (w1 & Hrun1 & Hstore1 & Hcache1 & _ & Htrace1).
  destruct (toggle_spec ck false w1) as (w2 & Hrun2 & Hstore2 & _ & _ & _).
  exists w1, w2. split; [done|]. split; [done|].
  split; [|split; [|split; [|split; [|split]]]].
  - intros a [Hck Ha]%elem_of_assets_of. split.
    + rewrite Hstore1, decide_True by done. by rewrite Ha.
    + rewrite Hcache1, decide_True; [done|]. split; [done|]. by rewrite Ha.
  - intros k Hk. split.
    + rewrite Hstore1. case_decide as Hck; [|done].
      destruct (content_store w !! k) as [d|] eqn:Hd; [|done].
      exfalso. apply Hk, elem_of_asset_keys. eauto.
    + rewrite Hcache1, decide_False; [done|].
      intros Hin. by apply Hk, elem_of_asset_keys.
  - done.
  - apply asset_keys_NoDup.
  - intros a [Hck Ha]%elem_of_assets_of.
    rewrite Hstore2, decide_True by done.
    rewrite Hstore1, decide_True by done.
    by rewrite set_locked_twice, Ha.
  - intros Hunlocked. apply map_eq. intros k.
    rewrite Hstore2, Hstore1.
    case_decide as Hck; [|done]. rewrite set_locked_twice.
    destruct (content_store w !! k) as [d|] eqn:Hd; [|done]. simpl. f_equal.
    apply insert_id.
    apply (Hunlocked (mkAsset k d)). by apply elem_of_assets_of.
Qed.

Lemma lock_then_unlock_witness :
  ∃ w1 w2,
    toggle_course_assets_lock course_b true sample_world = (Return tt, w1) ∧
    toggle_course_assets_lock course_b false w1 = (Return tt, w2) ∧
    content_store w1 !! mkAssetKey course_b "intro.mp4" =
      Some (<["locked" := VBool true]> (asset_doc "intro" false)) ∧
    content_store w2 = content_store sample_world.
Proof.
  assert (Hassets : assets_of course_b (content_store sample_world) =
                    [mkAsset (mkAssetKey course_b "intro.mp4") (asset_doc "intro" false)])
    by (vm_compute; reflexivity).
  destruct (lock_then_unlock course_b sample_world)
    as (w1 & w2 & Hrun1 & Hrun2 & Hlocked & _ & _ & _ & _ & Hrestore).
  exists w1, w2. split; [exact Hrun1|]. split; [exact Hrun2|]. split.
  - apply (Hlocked (mkAsset (mkAssetKey course_b "intro.mp4") (asset_doc "intro" false))).
    rewrite Hassets. apply list_elem_of_here.
  - apply Hrestore. intros a Ha. rewrite Hassets in Ha.
    apply list_elem_of_singleton in Ha as ->. vm_compute. reflexivity.
Defined.

(** C4 as stated fails on an asset that was locked before: after locking
    and unlocking the course its locked attribute is false, not what it
    was. *)
Lemma unlock_does_not_restore :
  let w1 := (toggle_course_assets_lock course_a true sample_world).2 in
  let w2 := (toggle_course_assets_lock course_a false w1).2 in
  (toggle_course_assets_lock course_a true sample_world).1 = Return tt ∧
  (toggle_course_assets_lock course_a false w1).1 = Return tt ∧
  content_store sample_world !! mkAssetKey course_a "logo.png" =
    Some (asset_doc "logo" true) ∧
  content_store w2 !! mkAssetKey course_a "logo.png" = Some (asset_doc "logo" false) ∧
  content_store w2 ≠ content_store sample_world.
Proof.
  assert (Hbefore : content_store sample_world !! mkAssetKey course_a "logo.png" =
                    Some (asset_doc "logo" true)) by (vm_compute; reflexivity).
  assert (Hafter :
    content_store
      (toggle_course_assets_lock course_a false
         (toggle_course_assets_lock course_a true sample_world).2).2
      !! mkAssetKey course_a "logo.png" = Some (asset_doc "logo" false))
    by (vm_compute; reflexivity).
  cbv zeta.
  split; [vm_compute; reflexivity|].
  split; [vm_compute; reflexivity|].
  split; [exact Hbefore|].
  split; [exact Hafter|].
  intros Heq. rewrite Heq, Hbefore in Hafter.
  apply (f_equal (fun o => o ≫= (fun d : gmap string AttrVal => d !! "locked"))) in Hafter.
  vm_compute in Hafter. discriminate Hafter.
Qed.

Example lock_trace :
  trace (toggle_course_assets_lock course_b true sample_world).2 =
  [EvSetAttr (mkAssetKey course_b "intro.mp4") "locked" (VBool true);
   EvDelCached (mkAssetKey course_b "intro.mp4");
   EvLog "Assets for course: course-v1:edX+B+2017 successfully locked"].
Proof. vm_compute. reflexivity. Qed.

(** *** The whole course listing *)

(** C8: without a course id the command returns, having run
    [toggle_course_assets_lock] on the id of every course of the listing, in
    order, with the one lock value of the options: every asset of a listed
    course has the attribute set and its cache entry evicted, every other
    asset and cache entry is untouched, and for each listed course the
    outcome on its own assets is that of toggling this course alone. *)
Theorem no_course_id_toggles_listing (from_string : Parser) (options : Options) (w : World) :
  opt_course_id options = None →
  let locked := default true (opt_locked options) in
  ∃ w',
    handle from_string options w = (Return tt, w') ∧
    handle from_string options w =
      for_each (courses w)
        (fun course => toggle_course_assets_lock (id course) locked) w ∧
    (∀ k d, course_key k ∈ id <$> courses w → content_store w !! k = Some d →
       content_store w' !! k = Some (<["locked" := VBool locked]> d) ∧
       cache w' !! k = None) ∧
    (∀ k, course_key k ∉ id <$> courses w →
       content_store w' !! k = content_store w !! k ∧ cache w' !! k = cache w !! k) ∧
    (∀ c k, c ∈ courses w → course_key k = id c →
       content_store w' !! k =
         content_store (toggle_course_assets_lock (id c) locked w).2 !! k ∧
       cache w' !! k = cache (toggle_course_assets_lock (id c) locked w).2 !! k).
Proof.
  intros Hid locked.
  destruct (toggle_all_spec locked (courses w) w) as (w' & Hrun & Hstore & Hcache & _).
  assert (Hhandle : handle from_string options w =
            for_each (courses w)
              (fun course => toggle_course_assets_lock (id course) locked) w).
  { unfold handle. rewrite Hid. reflexivity. }
  exists w'. split; [by rewrite Hhandle|]. split; [done|].
  split; [|split].
  - intros k d Hk Hd. split.
    + rewrite Hstore, decide_True by done. by rewrite Hd.
    + rewrite Hcache, decide_True; [done|]. split; [done|]. by rewrite Hd.
  - intros k Hk. split.
    + by rewrite Hstore, decide_False.
    + rewrite Hcache, decide_False; [done|]. by intros [? _].
  - intros c k Hc Hk.
    destruct (toggle_spec (id c) locked w) as (wc & Hrunc & Hstorec & Hcachec & _).
    rewrite Hrunc. cbn [snd].
    assert (course_key k ∈ id <$> courses w).
    { rewrite Hk. apply list_elem_of_fmap. by exists c. }
    split.
    + rewrite Hstore, Hstorec. by rewrite !decide_True.
    + rewrite Hcache, Hcachec. repeat case_decide; try done; exfalso; tauto.
Qed.

Lemma no_course_id_toggles_listing_witness :
  ∃ w',
    handle sample_from_string (mkOptions None (Some false)) sample_world = (Return tt, w') ∧
    content_store w' !! mkAssetKey course_a "logo.png" =
      Some (<["locked" := VBool false]> (asset_doc "logo" true)) ∧
    cache w' !! mkAssetKey course_a "logo.png" = None.
Proof.
  destruct (no_course_id_toggles_listing sample_from_string
              (mkOptions None (Some false)) sample_world eq_refl)
    as (w' & Hrun & _ & Hlisted & _).
  exists w'. split; [exact Hrun|].
  apply Hlisted.
  - vm_compute. apply list_elem_of_here.
  - vm_compute. reflexivity.
Defined.

(** * Further properties of the decorators *)

(** ** What the frame decorators leave alone, and when they fail *)

(** The whitelisted-URL decorator changes the X-Frame-Options and
    Content-Security-Policy entries of the header table and nothing else:
    whenever it returns, the status, the body and every other header are
    those of the wrapped view's response. *)
Theorem allow_frame_only_sets_two_headers (env : Env) (view_func : View)
    (request : HttpRequest) (resp : HttpResponse) :
  allow_frame_from_whitelisted_url env view_func request = Return resp →
  status_code resp = status_code (view_func request) ∧
  content resp = content (view_func request) ∧
  ∀ k : string, k ≠ "x-frame-options" → k ≠ "content-security-policy" →
    _headers resp !! k = _headers (view_func request) !! k.
Proof.
  assert (Hframe : ∀ x c,
    let r := setitem (setitem (view_func request) "X-Frame-Options" x)
                     "Content-Security-Policy" c in
    status_code r = status_code (view_func request) ∧
    content r = content (view_func request) ∧
    ∀ k : string, k ≠ "x-frame-options" → k ≠ "content-security-policy" →
      _headers r !! k = _headers (view_func request) !! k).
  { intros x c r. repeat split. intros k Hx Hc. unfold r.
    rewrite headers_setitem_ne by (by rewrite lower_csp).
    apply headers_setitem_ne. by rewrite lower_xfo. }
  unfold allow_frame_from_whitelisted_url. intros Hrun.
  destruct (ENABLE_THIRD_PARTY_AUTH (FEATURES (settings env))); simpl in Hrun.
  2:{ injection Hrun as <-. apply Hframe. }
  destruct (META request !! "HTTP_REFERER") as [referer|]; simpl in Hrun.
  2:{ injection Hrun as <-. apply Hframe. }
  destruct (urlparse.urlparse referer) as [parsed_url|e]; simpl in Hrun; [|done].
  destruct (Py.in_list _ _); simpl in Hrun; injection Hrun as <-; apply Hframe.
Qed.

Lemma allow_frame_only_sets_two_headers_witness :
  ∃ resp,
    allow_frame_from_whitelisted_url (sample_env true) sample_view
      (request_from (Some "http://idp.example.com/sso/")) = Return resp ∧
    content resp = "<html></html>" ∧
    _headers resp !! "content-type" = Some ("Content-Type", "text/html").
Proof.
  eexists. split; [reflexivity|].
  destruct (allow_frame_only_sets_two_headers (sample_env true) sample_view
              (request_from (Some "http://idp.example.com/sso/")) _ eq_refl)
    as (_ & Hcontent & Hheaders).
  split; [exact Hcontent|].
  rewrite Hheaders by discriminate. reflexivity.
Defined.

(** Either frame decorator raises exactly when the flag is on and the URL
    parser rejects the referrer, with the parser's exception, which is
    always ValueError "Invalid IPv6 URL"; both decorators fail on the same
    requests. *)
Theorem frame_decorators_raise_iff (env : Env) (view_func : View)
    (request : HttpRequest) (e : Exception) :
  let rejected :=
    ENABLE_THIRD_PARTY_AUTH (FEATURES (settings env)) = true ∧
    ∃ referer, META request !! "HTTP_REFERER" = Some referer ∧
               urlparse.urlparse referer = Raise e in
  (allow_frame_from_whitelisted_url env view_func request = Raise e ↔ rejected) ∧
  (xframe_allow_whitelisted env view_func request = Raise e ↔ rejected) ∧
  (rejected → e = ValueError "Invalid IPv6 URL").
Proof.
  intros rejected. unfold rejected. split; [|split].
  - unfold allow_frame_from_whitelisted_url.
    destruct (ENABLE_THIRD_PARTY_AUTH (FEATURES (settings env))); simpl.
    2:{ split; [done|]. by intros [? _]. }
    destruct (META request !! "HTTP_REFERER") as [referer|]; simpl.
    2:{ split; [done|]. by intros (_ & ? & ? & _). }
    destruct (urlparse.urlparse referer) as [p|e'] eqn:Hp; simpl.
    + destruct (Py.in_list _ _); simpl;
        (split; [done|]); intros (_ & r & [= <-] & Hr); congruence.
    + split.
      * intros [= <-]. split; [done|]. by exists referer.
      * intros (_ & r & [= <-] & Hr). congruence.
  - unfold xframe_allow_whitelisted.
    destruct (ENABLE_THIRD_PARTY_AUTH (FEATURES (settings env))); simpl.
    2:{ split; [done|]. by intros [? _]. }
    destruct (META request !! "HTTP_REFERER") as [referer|]; simpl.
    2:{ split; [done|]. by intros (_ & ? & ? & _). }
    destruct (urlparse.urlparse referer) as [p|e'] eqn:Hp; simpl.
    + destruct (lti_exists _ _); simpl;
        (split; [done|]); intros (_ & r & [= <-] & Hr); congruence.
    + split.
      * intros [= <-]. split; [done|]. by exists referer.
      * intros (_ & r & [= <-] & Hr). congruence.
  - intros (_ & referer & _ & Hparse). by apply urlparse_raises in Hparse.
Qed.

Lemma frame_decorators_raise_iff_witness :
  allow_frame_from_whitelisted_url (sample_env true) sample_view
    (request_from (Some "https://idp.example.com]/sso")) =
    Raise (ValueError "Invalid IPv6 URL") ∧
  xframe_allow_whitelisted (sample_env true) sample_view
    (request_from (Some "https://idp.example.com]/sso")) =
    Raise (ValueError "Invalid IPv6 URL").
Proof.
  destruct (frame_decorators_raise_iff (sample_env true) sample_view
              (request_from (Some "https://idp.example.com]/sso"))
              (ValueError "Invalid IPv6 URL")) as (Hallow & Hxframe & _).
  split.
  - apply Hallow. split; [reflexivity|]. eexists. split; reflexivity.
  - apply Hxframe. split; [reflexivity|]. eexists. split; reflexivity.
Defined.

Lemma allow_frame_outcome_witness :
  getitem
    (setitem (setitem (sample_view (request_from (Some "http://idp.example.com/sso?x=1")))
                      "X-Frame-Options"
                      "ALLOW-FROM https://portal.example.com https://lms.example.com")
             "Content-Security-Policy"
             "frame-ancestors https://portal.example.com https://lms.example.com")
    "X-Frame-Options" =
  Some ("ALLOW-FROM " +:+
        Py.join " " (THIRD_PARTY_AUTH_FRAME_ALLOWED_FROM_URL (settings (sample_env true)))).
Proof.
  destruct (allow_frame_outcome (sample_env true) sample_view
              (request_from (Some "http://idp.example.com/sso?x=1")) _ eq_refl)
    as [(Hxfo & _) | (Hxfo & _)].
  - exact Hxfo.
  - discriminate Hxfo.
Defined.

Lemma xframe_allow_iff_witness :
  ∃ resp v,
    xframe_allow_whitelisted (sample_env true) sample_view
      (request_from (Some "https://old.example.com/launch")) = Return resp ∧
    getitem resp "X-Frame-Options" = Some v ∧ v = "DENY".
Proof.
  destruct (xframe_allow_iff (sample_env true) sample_view
              (request_from (Some "https://old.example.com/launch")))
    as (resp & v & Hrun & Hget & Hv & Hiff).
  { intros referer e Href _ Hparse.
    unfold request_from in Href. cbn [META] in Href.
    apply lookup_singleton_Some in Href as [_ <-]. discriminate Hparse. }
  exists resp, v. split; [exact Hrun|]. split; [exact Hget|].
  destruct Hv as [Hv | Hv]; [subst v|exact Hv].
  injection Hrun as <-. discriminate Hget.
Defined.

(** ** The SSO-hint decorator: when it does not redirect *)

(** A request without a hint, with an empty hint, with the session_cleared
    marker, without a user, with an unauthenticated user, or whose hinted
    provider does not drop existing sessions, is answered by the wrapped
    view; in all but the last case whatever the registry would return. *)
Theorem tpa_hint_passes_through (env : Env) (func : View) (request : HttpRequest) :
  truthy_opt (QueryDict_get (GET request) "tpa_hint") = false ∨
  QueryDict_get (GET request) "session_cleared" = Some "yes" ∨
  user request = None ∨
  (∃ u, user request = Some u ∧ is_authenticated u = false) ∨
  (∃ p, Registry_get env (str_opt (QueryDict_get (GET request) "tpa_hint")) =
          Return (Some p) ∧ drop_existing_session p = false) →
  tpa_hint_ends_existing_session env func request = Return (func request).
Proof.
  unfold tpa_hint_ends_existing_session.
  intros [Hhint | [Hmarker | [Huser | [(u & Huser & Hauth) | (p & Hget & Hdrop)]]]].
  - by rewrite Hhint.
  - rewrite Hmarker. simpl. by rewrite andb_false_r.
  - rewrite Huser. by destruct (_ && _).
  - rewrite Huser, Hauth. by destruct (_ && _).
  - destruct (_ && _); simpl; [|done].
    destruct (user request) as [u|]; simpl; [|done].
    destruct (is_authenticated u); simpl; [|done].
    rewrite Hget. simpl. by rewrite Hdrop.
Qed.

Lemma tpa_hint_passes_through_witness :
  tpa_hint_ends_existing_session broken_env sample_view
    (request_with [("tpa_hint", ["saml-idp"])] (Some (mkUser false))) =
  Return (sample_view (request_with [("tpa_hint", ["saml-idp"])] (Some (mkUser false)))).
Proof.
  apply tpa_hint_passes_through.
  right. right. right. left. exists (mkUser false). split; reflexivity.
Defined.

(** For an authenticated user with a non-empty hint and no marker, an
    exception of the registry lookup other than ValueError is not caught:
    the decorator raises it and the wrapped view is not run. *)
Theorem tpa_hint_propagates_other_errors (env : Env) (func : View)
    (request : HttpRequest) (pid : string) (u : User) (e : Exception) :
  QueryDict_get (GET request) "tpa_hint" = Some pid → pid ≠ "" →
  QueryDict_get (GET request) "session_cleared" ≠ Some "yes" →
  user request = Some u → is_authenticated u = true →
  Registry_get env pid = Raise e →
  (∀ msg, e ≠ ValueError msg) →
  tpa_hint_ends_existing_session env func request = Raise e.
Proof.
  intros Hhint Hpid Hmarker Huser Hauth Hget Hother.
  unfold tpa_hint_ends_existing_session.
  rewrite Hhint, Huser, Hauth. simpl.
  assert (Py.truthy pid = true) as -> by (by destruct pid).
  rewrite bool_decide_eq_false_2 by done. simpl.
  rewrite Hget. destruct e; simpl; try done. by destruct (Hother msg).
Qed.

Lemma tpa_hint_propagates_other_errors_witness :
  tpa_hint_ends_existing_session broken_env sample_view
    (request_with [("tpa_hint", ["saml-idp"])] (Some (mkUser true))) =
  Raise (NotFoundError "registry unavailable").
Proof.
  apply (tpa_hint_propagates_other_errors _ _ _ "saml-idp" (mkUser true));
    first [ reflexivity | discriminate | by intros msg ].
Defined.

(** ** The SSO-hint decorator: what it can return *)

Lemma all_app (p : ascii → bool) (s t : string) :
  Py.all p (s +:+ t) = Py.all p s && Py.all p t.
Proof.
  induction s as [|a s IH]; [done|].
  change (p a && Py.all p (s +:+ t) = p a && Py.all p s && Py.all p t).
  by rewrite IH, andb_assoc.
Qed.

Lemma quote_plus_char_quoted (a : ascii) :
  Py.all quoted_char (urllib.quote_plus_char a) = true.
Proof. destruct a as [[] [] [] [] [] [] [] []]; reflexivity. Qed.

(** [quote_plus] produces letters, digits, [_.-], percent and plus signs
    only. *)
Lemma quote_plus_quoted (s : string) :
  Py.all quoted_char (urllib.quote_plus s) = true.
Proof.
  rewrite quote_plus_chars_eq.
  induction s as [|a s IH]; [done|]. simpl.
  by rewrite all_app, quote_plus_char_quoted, IH.
Qed.

Lemma all_not_contains (p : ascii → bool) (c : ascii) (s : string) :
  Py.all p s = true → p c = false → Py.contains c s = false.
Proof.
  intros Hall Hc. induction s as [|a s IH]; [done|]. simpl in *.
  apply andb_true_iff in Hall as [Ha Hs].
  destruct (Ascii.eqb a c) eqn:Hac; [|by apply IH].
  apply Ascii.eqb_eq in Hac. congruence.
Qed.

(** Whatever the request, a response returned by the decorator is either
    the wrapped view's or a redirect to the logout endpoint followed by
    [?redirect_url=] and a value made of letters, digits, [_.-], percent and
    plus signs: no request path or hint can add a second query parameter or
    a fragment to the logout URL. *)
Theorem tpa_hint_outcomes (env : Env) (func : View) (request : HttpRequest)
    (resp : HttpResponse) :
  tpa_hint_ends_existing_session env func request = Return resp →
  resp = func request ∨
  ∃ v, resp = redirect (build_absolute_uri env request (reverse env "logout") +:+
                        "?redirect_url=" +:+ v) ∧
       Py.all quoted_char v = true ∧
       Py.contains "&" v = false ∧ Py.contains "=" v = false ∧
       Py.contains "#" v = false ∧ Py.contains "?" v = false.
Proof.
  unfold tpa_hint_ends_existing_session.
  match goal with
  | |- rbind ?m _ = _ → _ => destruct m as [sso_provider|e]
  end; simpl; [|discriminate].
  destruct sso_provider as [p|]; [|intros [= <-]; by left].
  destruct (drop_existing_session p); [|intros [= <-]; by left].
  intros [= <-]. right.
  rewrite urlencode_redirect_url.
  eexists. split; [reflexivity|].
  pose proof (quote_plus_quoted
    (path request +:+ "?" +:+
     urllib.urlencode
       [("tpa_hint", str_opt (QueryDict_get (GET request) "tpa_hint"));
        ("session_cleared", "yes")])) as Hq.
  split; [exact Hq|].
  repeat split; by apply (all_not_contains quoted_char).
Qed.

Lemma tpa_hint_outcomes_witness :
  ∃ v, redirect ("https://courses.example.com/logout" +:+ "?redirect_url=" +:+
                 "%2Flogin%3Ftpa_hint%3Dsaml-idp%26session_cleared%3Dyes") =
       redirect ("https://courses.example.com/logout" +:+ "?redirect_url=" +:+ v) ∧
       Py.contains "&" v = false.
Proof.
  destruct (tpa_hint_outcomes (sample_env true) sample_view
              (request_with [("tpa_hint", ["saml-idp"])] (Some (mkUser true)))
              _ eq_refl) as [Hview | (v & Hv & _ & Hamp & _)].
  - discriminate Hview.
  - exists v. split; [exact Hv | exact Hamp].
Defined.

(** Decoding undoes [quote_plus] on every byte string, and a string of
    letters, digits and [_.-] (a provider id such as [saml-idp]) is encoded
    as itself. *)
Theorem quote_plus_round_trip (s : string) :
  urllib.unquote_plus (urllib.quote_plus s) = s ∧
  (Py.all urllib.always_safe s = true → urllib.quote_plus s = s).
Proof. split; [apply unquote_quote_plus | apply quote_plus_safe]. Qed.

Lemma quote_plus_round_trip_witness :
  urllib.unquote_plus (urllib.quote_plus "lti-a b&c=d/e") = "lti-a b&c=d/e" ∧
  urllib.quote_plus "oa2-google_oauth2.v1" = "oa2-google_oauth2.v1".
Proof.
  split.
  - apply (quote_plus_round_trip "lti-a b&c=d/e").
  - apply (quote_plus_round_trip "oa2-google_oauth2.v1"). reflexivity.
Defined.

(** * Further properties of the asset lock toggler *)

(** One run of [toggle_course_assets_lock] returns and neither adds nor
    removes an asset, changes no attribute other than [locked], adds no
    cache entry, leaves the course listing alone and only appends to the
    effects so far. *)
Theorem toggle_preserves (ck : CourseKey) (locked : bool) (w : World) :
  let w' := (toggle_course_assets_lock ck locked w).2 in
  (toggle_course_assets_lock ck locked w).1 = Return tt ∧
  dom (content_store w') = dom (content_store w) ∧
  (∀ k (attr : string), attr ≠ "locked" →
     content_store w' !! k ≫= (λ d, d !! attr) =
     content_store w !! k ≫= (λ d, d !! attr)) ∧
  cache w' ⊆ cache w ∧
  courses w' = courses w ∧
  ∃ events, trace w' = (trace w ++ events)%list.
Proof.
  destruct (toggle_spec ck locked w) as (w' & Hrun & Hstore & Hcache & Hcourses & Htrace).
  rewrite Hrun. cbn [fst snd]. split; [done|].
  split; [|split; [|split; [|split]]].
  - apply set_eq. intros k. rewrite !elem_of_dom.
    by apply (toggle_keeps_keys ck locked).
  - intros k attr Hattr. rewrite Hstore. case_decide; [|done].
    destruct (content_store w !! k) as [d|]; [|done]. simpl.
    by rewrite lookup_insert_ne.
  - apply map_subseteq_spec. intros k v. rewrite Hcache. by case_decide.
  - done.
  - eexists. exact Htrace.
Qed.

Lemma toggle_preserves_witness :
  content_store (toggle_course_assets_lock course_a true sample_world).2
    !! mkAssetKey course_a "notes.pdf" ≫= (λ d, d !! "displayname") =
  Some (VStr "notes").
Proof.
  destruct (toggle_preserves course_a true sample_world) as (_ & _ & Hattrs & _).
  rewrite Hattrs by discriminate. vm_compute. reflexivity.
Defined.

(** Running the toggler twice on a course leaves the store and the cache
    as the second run alone would: the later lock value wins, and repeating
    a run changes nothing more. *)
Theorem toggle_last_wins (ck : CourseKey) (locked locked' : bool) (w : World) :
  let w1 := (toggle_course_assets_lock ck locked w).2 in
  content_store (toggle_course_assets_lock ck locked' w1).2 =
    content_store (toggle_course_assets_lock ck locked' w).2 ∧
  cache (toggle_course_assets_lock ck locked' w1).2 =
    cache (toggle_course_assets_lock ck locked' w).2.
Proof.
  destruct (toggle_spec ck locked w) as (w1 & Hrun1 & Hstore1 & Hcache1 & _).
  destruct (toggle_spec ck locked' w1) as (w2 & Hrun2 & Hstore2 & Hcache2 & _).
  destruct (toggle_spec ck locked' w) as (w3 & Hrun3 & Hstore3 & Hcache3 & _).
  rewrite Hrun1. cbn [snd]. rewrite Hrun2, Hrun3. cbn [snd].
  split; apply map_eq; intros k.
  - rewrite Hstore2, Hstore3, Hstore1.
    case_decide; [|done]. apply set_locked_twice.
  - rewrite Hcache2, Hcache3, Hcache1.
    pose proof (toggle_keeps_keys ck locked w w1 k Hstore1) as Hkeys.
    repeat case_decide; try done; exfalso; tauto.
Qed.

(** With a non-empty course id that parses, the command returns, is one
    run of [toggle_course_assets_lock] on the parsed key with the lock value
    of the options ([True] when missing), and touches no asset and no cache
    entry of any other course. *)
Theorem handle_one_course (from_string : Parser) (options : Options) (w : World)
    (course_id : string) (ck : CourseKey) :
  opt_course_id options = Some course_id →
  course_id ≠ "" →
  from_string course_id = Return ck →
  handle from_string options w =
    toggle_course_assets_lock ck (default true (opt_locked options)) w ∧
  (handle from_string options w).1 = Return tt ∧
  ∀ k, course_key k ≠ ck →
    content_store (handle from_string options w).2 !! k = content_store w !! k ∧
    cache (handle from_string options w).2 !! k = cache w !! k.
Proof.
  intros Hid Hne Hparse.
  assert (Hhandle : handle from_string options w =
            toggle_course_assets_lock ck (default true (opt_locked options)) w).
  { unfold handle. rewrite Hid. simpl.
    assert (Py.truthy course_id = true) as -> by (by destruct course_id).
    rewrite Hparse. reflexivity. }
  split; [done|]. rewrite Hhandle.
  destruct (toggle_spec ck (default true (opt_locked options)) w)
    as (w' & Hrun & Hstore & Hcache & _).
  rewrite Hrun. cbn [fst snd]. split; [done|].
  intros k Hk. split.
  - by rewrite Hstore, decide_False.
  - rewrite Hcache, decide_False; [done|]. by intros [? _].
Qed.

Lemma handle_one_course_witness :
  handle sample_from_string (mkOptions (Some course_a) None) sample_world =
    toggle_course_assets_lock course_a true sample_world ∧
  content_store
    (handle sample_from_string (mkOptions (Some course_a) None) sample_world).2
    !! mkAssetKey course_b "intro.mp4" =
  content_store sample_world !! mkAssetKey course_b "intro.mp4".
Proof.
  destruct (handle_one_course sample_from_string (mkOptions (Some course_a) None)
              sample_world course_a course_a eq_refl)
    as (Hhandle & _ & Hother); [discriminate | reflexivity |].
  split; [exact Hhandle|].
  apply Hother. discriminate.
Defined.

(** Without a course id, the store and the cache the command leaves depend
    on the set of listed course ids only: neither the order of the listing
    nor a course listed more than once makes a difference. *)
Theorem listing_order_irrelevant (from_string : Parser) (options : Options)
    (w1 w2 : World) :
  opt_course_id options = None →
  content_store w1 = content_store w2 →
  cache w1 = cache w2 →
  (∀ ck, ck ∈ id <$> courses w1 ↔ ck ∈ id <$> courses w2) →
  content_store (handle from_string options w1).2 =
    content_store (handle from_string options w2).2 ∧
  cache (handle from_string options w1).2 = cache (handle from_string options w2).2.
Proof.
  intros Hid Hstore Hcache Hsame.
  assert (Hhandle : ∀ w, handle from_string options w =
            for_each (courses w)
              (fun course => toggle_course_assets_lock (id course)
                               (default true (opt_locked options))) w).
  { intros w. unfold handle. rewrite Hid. reflexivity. }
  rewrite !Hhandle.
  destruct (toggle_all_spec (default true (opt_locked options)) (courses w1) w1)
    as (w1' & Hrun1 & Hstore1 & Hcache1 & _).
  destruct (toggle_all_spec (default true (opt_locked options)) (courses w2) w2)
    as (w2' & Hrun2 & Hstore2 & Hcache2 & _).
  rewrite Hrun1, Hrun2. cbn [snd].
  split; apply map_eq; intros k.
  - rewrite Hstore1, Hstore2, Hstore.
    pose proof (Hsame (course_key k)).
    repeat case_decide; try done; exfalso; tauto.
  - rewrite Hcache1, Hcache2, Hcache, Hstore.
    pose proof (Hsame (course_key k)).
    repeat case_decide; try done; exfalso; tauto.
Qed.

Lemma listing_order_irrelevant_witness :
  content_store
    (handle sample_from_string (mkOptions None (Some true)) sample_world).2 =
  content_store
    (handle sample_from_string (mkOptions None (Some true)) sample_world_relisted).2 ∧
  cache (handle sample_from_string (mkOptions None (Some true)) sample_world).2 =
  cache (handle sample_from_string (mkOptions None (Some true)) sample_world_relisted).2.
Proof.
  apply listing_order_irrelevant; [reflexivity..|].
  intros ck. unfold sample_world, sample_world_relisted. cbn [courses].
  rewrite !fmap_cons, !fmap_nil. cbn [id].
  rewrite !elem_of_cons, !elem_of_nil. tauto.
Defined.

(** * Parsing and rebuilding a referrer *)

(** ** Strings *)

Lemma app_String (a : ascii) (s t : string) : String a s +:+ t = String a (s +:+ t).
Proof. reflexivity. Qed.

Lemma app_empty_r (s : string) : s +:+ "" = s.
Proof. induction s as [|a s IH]; [done|]. by rewrite app_String, IH. Qed.

Lemma length_app (s t : string) :
  String.length (s +:+ t) = String.length s + String.length t.
Proof. induction s as [|a s IH]; [done|]. rewrite app_String. simpl. by rewrite IH. Qed.

Lemma contains_app (c : ascii) (s t : string) :
  Py.contains c (s +:+ t) = Py.contains c s || Py.contains c t.
Proof.
  induction s as [|a s IH]; [done|]. rewrite app_String. simpl.
  destruct (Ascii.eqb a c); [done|]. exact IH.
Qed.

Lemma find_None (c : ascii) (s : string) :
  Py.contains c s = false → Py.find c s = None.
Proof.
  induction s as [|a s IH]; [done|]. simpl.
  destruct (Ascii.eqb a c); [done|]. intros Hs. by rewrite IH.
Qed.

Lemma find_app (c : ascii) (s t : string) :
  Py.contains c s = false →
  Py.find c (s +:+ t) = (λ i, String.length s + i) <$> Py.find c t.
Proof.
  induction s as [|a s IH]; intros Hs.
  - change ("" +:+ t) with t. by destruct (Py.find c t).
  - rewrite app_String. simpl in *.
    destruct (Ascii.eqb a c); [done|]. rewrite IH by done.
    by destruct (Py.find c t).
Qed.

Lemma take_app (s t : string) : Py.take (String.length s) (s +:+ t) = s.
Proof. induction s as [|a s IH]; [by destruct t|]. rewrite app_String. simpl. by rewrite IH. Qed.

Lemma drop_app (s t : string) : Py.drop (String.length s) (s +:+ t) = t.
Proof. induction s as [|a s IH]; [by destruct t|]. rewrite app_String. simpl. exact IH. Qed.

Lemma drop_S_app (c : ascii) (s t : string) :
  Py.drop (S (String.length s)) (s +:+ String c t) = t.
Proof. induction s as [|a s IH]; [done|]. rewrite app_String. exact IH. Qed.

Lemma find_here (c : ascii) (t : string) : Py.find c (String c t) = Some 0.
Proof. simpl. by rewrite Ascii.eqb_refl. Qed.

Lemma split1_app (c : ascii) (s t : string) :
  Py.contains c s = false → Py.split1 c (s +:+ String c t) = (s, t).
Proof.
  intros Hs. unfold Py.split1. rewrite find_app, find_here by done.
  change ((λ i, String.length s + i) <$> Some 0) with (Some (String.length s + 0)).
  rewrite Nat.add_0_r. by rewrite take_app, drop_S_app.
Qed.

Lemma none_of_contains (cs s : string) (c : ascii) :
  none_of cs s = true → Py.contains c cs = true → Py.contains c s = false.
Proof.
  intros Hs Hc. apply (all_not_contains _ c s Hs). by rewrite Hc.
Qed.

(** ** Rebuilding, then parsing *)

Lemma wf_components_spec (scheme netloc path query fragment : string) :
  wf_components scheme netloc path query fragment = true →
  (scheme = "http" ∨ scheme = "https") ∧
  Py.truthy netloc = true ∧ none_of "/?#[]" netloc = true ∧
  (path = "" ∨ ∃ r, path = String "/" r) ∧
  none_of "?#;" path = true ∧ none_of "#" query = true.
Proof.
  unfold wf_components. rewrite !andb_true_iff, !orb_true_iff.
  intros [[[[[Hscheme Hnetloc] Hnone] Hpath] Hpnone] Hq].
  repeat split; try done.
  - destruct Hscheme as [H|H]; apply String.eqb_eq in H; auto.
  - destruct path as [|a r]; [by left|right].
    destruct Hpath as [Hpath|Hpath]; [done|].
    assert (Py.take 1 (String a r) = String a "") as Htake by (by destruct r).
    rewrite Htake in Hpath. apply String.eqb_eq in Hpath.
    injection Hpath as ->. eauto.
Qed.

Lemma urlunparse_wf (scheme netloc path query fragment : string) :
  wf_components scheme netloc path query fragment = true →
  urlparse.urlunparse scheme netloc path "" query fragment =
  scheme +:+ ":" +:+ "//" +:+ netloc +:+ path +:+
  opt_part "?" query +:+ opt_part "#" fragment.
Proof.
  intros (Hscheme & Hnetloc & _ & Hpath & _)%wf_components_spec.
  unfold urlparse.urlunparse, urlparse.urlunsplit, opt_part.
  cbn [Py.truthy]. rewrite Hnetloc. cbn [orb].
  assert (Py.truthy path && negb (String.eqb (Py.take 1 path) "/") = false) as ->.
  { destruct Hpath as [->|[r ->]]; [done|]. simpl. by destruct r. }
  assert (Py.truthy scheme = true) as -> by (by destruct Hscheme as [->| ->]).
  destruct (Py.truthy query), (Py.truthy fragment);
    rewrite ?string_app_assoc, ?app_empty_r; reflexivity.
Qed.

Lemma take_all (s : string) : Py.take (String.length s) s = s.
Proof. pose proof (take_app s "") as H. by rewrite app_empty_r in H. Qed.

Lemma drop_all (s : string) : Py.drop (String.length s) s = "".
Proof. pose proof (drop_app s "") as H. by rewrite app_empty_r in H. Qed.

Lemma delimiter_cases (c : ascii) :
  Py.contains c "/?#" = true → c = "/"%char ∨ c = "?"%char ∨ c = "#"%char.
Proof.
  destruct c as [[] [] [] [] [] [] [] []]; intros H;
    first [ discriminate H | by left | by (right; left) | by (right; right) ].
Qed.

(** The network location ends where the rest of the URL starts, when the
    rest is empty or starts with a delimiter and the location has none. *)
Lemma splitnetloc_wf (netloc rem : string) :
  none_of "/?#[]" netloc = true →
  (rem = "" ∨ ∃ c r, rem = String c r ∧ Py.contains c "/?#" = true) →
  urlparse._splitnetloc ("//" +:+ netloc +:+ rem) 2 = (netloc, rem).
Proof.
  intros Hn Hrem.
  assert (Hslash : Py.contains "/" netloc = false)
    by (by apply (none_of_contains "/?#[]")).
  assert (Hquery : Py.contains "?" netloc = false)
    by (by apply (none_of_contains "/?#[]")).
  assert (Hhash : Py.contains "#" netloc = false)
    by (by apply (none_of_contains "/?#[]")).
  change ("//" +:+ netloc +:+ rem) with (String "/" (String "/" (netloc +:+ rem))).
  unfold urlparse._splitnetloc, Py.find_from.
  cbn [fold_left Py.drop String.length].
  rewrite !find_app, length_app by done.
  assert (Hdelim :
    ∀ i1 i2 i3 : option nat,
      (rem = "" → i1 = None ∧ i2 = None ∧ i3 = None) →
      (rem ≠ "" → (i1 = Some 0 ∨ i2 = Some 0 ∨ i3 = Some 0)) →
      match (λ i, 2 + i) <$> ((λ i, String.length netloc + i) <$> i3) with
      | Some wdelim =>
          Nat.min
            match (λ i, 2 + i) <$> ((λ i, String.length netloc + i) <$> i2) with
            | Some wdelim0 =>
                Nat.min
                  match (λ i, 2 + i) <$> ((λ i, String.length netloc + i) <$> i1) with
                  | Some wdelim1 =>
                      Nat.min (S (S (String.length netloc + String.length rem))) wdelim1
                  | None => S (S (String.length netloc + String.length rem))
                  end wdelim0
            | None =>
                match (λ i, 2 + i) <$> ((λ i, String.length netloc + i) <$> i1) with
                | Some wdelim1 =>
                    Nat.min (S (S (String.length netloc + String.length rem))) wdelim1
                | None => S (S (String.length netloc + String.length rem))
                end
            end wdelim
      | None =>
          match (λ i, 2 + i) <$> ((λ i, String.length netloc + i) <$> i2) with
          | Some wdelim0 =>
              Nat.min
                match (λ i, 2 + i) <$> ((λ i, String.length netloc + i) <$> i1) with
                | Some wdelim1 =>
                    Nat.min (S (S (String.length netloc + String.length rem))) wdelim1
                | None => S (S (String.length netloc + String.length rem))
                end wdelim0
          | None =>
              match (λ i, 2 + i) <$> ((λ i, String.length netloc + i) <$> i1) with
              | Some wdelim1 =>
                  Nat.min (S (S (String.length netloc + String.length rem))) wdelim1
              | None => S (S (String.length netloc + String.length rem))
              end
          end
      end = S (S (String.length netloc))).
  { intros i1 i2 i3 Hempty Hsome.
    destruct rem as [|c r].
    - destruct Hempty as (-> & -> & ->); [done|]. simpl. lia.
    - destruct i1 as [j1|], i2 as [j2|], i3 as [j3|]; simpl;
        destruct Hsome as [H|[H|H]]; try done; try injection H as ->; lia. }
  rewrite Hdelim.
  - change (Py.drop (S (S (String.length netloc)))
              (String "/" (String "/" (netloc +:+ rem))))
      with (Py.drop (String.length netloc) (netloc +:+ rem)).
    cbn [Nat.sub]. rewrite Nat.sub_0_r. by rewrite take_app, drop_app.
  - intros ->. done.
  - intros Hne. destruct Hrem as [->|(c & r & -> & Hc)]; [done|].
    destruct (delimiter_cases c Hc) as [->|[->| ->]]; rewrite find_here; auto.
Qed.

Lemma contains_here (c : ascii) (t : string) : Py.contains c (String c t) = true.
Proof. simpl. by rewrite Ascii.eqb_refl. Qed.

Lemma rest_starts_with_delimiter (path query fragment : string) :
  (path = "" ∨ ∃ r, path = String "/" r) →
  let rem := path +:+ opt_part "?" query +:+ opt_part "#" fragment in
  rem = "" ∨ ∃ c r, rem = String c r ∧ Py.contains c "/?#" = true.
Proof.
  intros [->|[r ->]] rem; unfold rem.
  - destruct query as [|qa q]; [destruct fragment as [|fa f]|].
    + by left.
    + right. by exists "#"%char, (String fa f).
    + right. by exists "?"%char, (String qa q +:+ opt_part "#" fragment).
  - right. by exists "/"%char, (r +:+ opt_part "?" query +:+ opt_part "#" fragment).
Qed.

(** [split_rest] on a network location, path, query and fragment put
    together with their separators gives them back. *)
Lemma split_rest_wf (scheme0 scheme netloc path query fragment : string) :
  wf_components scheme0 netloc path query fragment = true →
  urlparse.split_rest scheme
    ("//" +:+ netloc +:+ path +:+ opt_part "?" query +:+ opt_part "#" fragment) =
  Return (urlparse.mkSplit scheme netloc path query fragment).
Proof.
  intros (_ & _ & Hnetloc & Hpath & Hpnone & Hqnone)%wf_components_spec.
  assert (Hp_hash : Py.contains "#" path = false)
    by (by apply (none_of_contains "?#;")).
  assert (Hp_query : Py.contains "?" path = false)
    by (by apply (none_of_contains "?#;")).
  assert (Hq_hash : Py.contains "#" query = false)
    by (by apply (none_of_contains "#")).
  assert (Hbrackets : urlparse.unbalanced_brackets netloc = false).
  { unfold urlparse.unbalanced_brackets.
    by rewrite (none_of_contains "/?#[]" netloc "[" Hnetloc),
               (none_of_contains "/?#[]" netloc "]" Hnetloc). }
  unfold urlparse.split_rest.
  change (Py.take 2 ("//" +:+ netloc +:+ path +:+ opt_part "?" query +:+
                     opt_part "#" fragment)) with "//".
  change (String.eqb "//" "//") with true. cbv iota.
  rewrite splitnetloc_wf by (done || by apply rest_starts_with_delimiter).
  rewrite Hbrackets. cbn [rbind].
  destruct query as [|qa q], fragment as [|fa f].
  - change (opt_part "?" "") with "". change (opt_part "#" "") with "".
    change ("" +:+ "") with "". rewrite app_empty_r.
    by rewrite Hp_hash, Hp_query.
  - change (opt_part "?" "") with "".
    change (opt_part "#" (String fa f)) with (String "#" (String fa f)).
    change ("" +:+ String "#" (String fa f)) with (String "#" (String fa f)).
    rewrite contains_app, contains_here, orb_true_r.
    rewrite split1_app by done. by rewrite Hp_query.
  - change (opt_part "#" "") with "".
    change (opt_part "?" (String qa q)) with (String "?" (String qa q)).
    rewrite app_empty_r.
    assert (Py.contains "#" (path +:+ String "?" (String qa q)) = false) as ->.
    { rewrite contains_app, Hp_hash. exact Hq_hash. }
    rewrite contains_app, contains_here, orb_true_r.
    by rewrite split1_app.
  - change (opt_part "?" (String qa q)) with (String "?" (String qa q)).
    change (opt_part "#" (String fa f)) with (String "#" (String fa f)).
    replace (path +:+ String "?" (String qa q) +:+ String "#" (String fa f))
      with ((path +:+ String "?" (String qa q)) +:+ String "#" (String fa f))
      by (by rewrite string_app_assoc).
    assert (Py.contains "#" (path +:+ String "?" (String qa q)) = false) as Hpq.
    { rewrite contains_app, Hp_hash. exact Hq_hash. }
    rewrite contains_app, contains_here, orb_true_r.
    rewrite split1_app by done.
    rewrite contains_app, contains_here, orb_true_r.
    by rewrite split1_app.
Qed.

Lemma urlsplit_http (rest : string) :
  urlparse.urlsplit ("http" +:+ ":" +:+ "//" +:+ rest) =
  urlparse.split_rest "http" ("//" +:+ rest).
Proof. reflexivity. Qed.

Lemma urlsplit_https (rest : string) :
  urlparse.urlsplit ("https" +:+ ":" +:+ "//" +:+ rest) =
  urlparse.split_rest "https" ("//" +:+ rest).
Proof. reflexivity. Qed.

Lemma parse_rebuilt (scheme netloc path query fragment : string) :
  wf_components scheme netloc path query fragment = true →
  urlparse.urlparse (urlparse.urlunparse scheme netloc path "" query fragment) =
  Return (urlparse.mkParse scheme netloc path "" query fragment).
Proof.
  intros Hwf. rewrite urlunparse_wf by done.
  pose proof (split_rest_wf scheme scheme netloc path query fragment Hwf) as Hsplit.
  destruct (wf_components_spec _ _ _ _ _ Hwf) as (Hscheme & _ & _ & _ & Hpnone & _).
  assert (Hparams : Py.contains ";" path = false)
    by (by apply (none_of_contains "?#;")).
  unfold urlparse.urlparse.
  destruct Hscheme as [-> | ->];
    [rewrite urlsplit_http | rewrite urlsplit_https];
    rewrite Hsplit; cbn [rbind urlparse.s_scheme urlparse.s_netloc urlparse.s_path
                         urlparse.s_query urlparse.s_fragment];
    by rewrite Hparams, andb_false_r.
Qed.

(** Parsing undoes rebuilding: for the components of a well-formed http
    or https URL, [urlparse(urlunparse(...))] returns (it does not raise)
    and returns those components. *)
Theorem urlparse_urlunparse (scheme netloc path query fragment : string) :
  wf_components scheme netloc path query fragment = true →
  urlparse.urlparse (urlparse.urlunparse scheme netloc path "" query fragment) =
  Return (urlparse.mkParse scheme netloc path "" query fragment).
Proof.
  intros Hwf.
  destruct (wf_components_spec _ _ _ _ _ Hwf) as (Hscheme & Hnetloc & _).
  destruct Hscheme as [-> | ->]; by apply parse_rebuilt.
Qed.

Lemma urlparse_urlunparse_witness :
  urlparse.urlparse "https://idp.example.com:8443/saml/sso/?SAMLRequest=abc#top" =
  Return (urlparse.mkParse "https" "idp.example.com:8443" "/saml/sso/" ""
                           "SAMLRequest=abc" "top").
Proof.
  apply (urlparse_urlunparse "https" "idp.example.com:8443" "/saml/sso/"
                             "SAMLRequest=abc" "top").
  reflexivity.
Defined.

(** ** Referrers that differ in what the decorator strips *)

Lemma rstrip_all (p : ascii → bool) (c : ascii) (s : string) :
  Py.all p s = true → Py.all p (Py.rstrip c s) = true.
Proof.
  induction s as [|a s IH]; [done|]. simpl.
  intros [Ha Hs]%andb_true_iff.
  destruct (Py.rstrip c s) as [|b r] eqn:Hr.
  - destruct (Ascii.eqb a c); simpl; [done|]. by rewrite Ha.
  - simpl. rewrite Ha. simpl. by apply IH.
Qed.

Lemma rstrip_head (c : ascii) (r : string) :
  Py.rstrip c (String c r) = "" ∨ ∃ r', Py.rstrip c (String c r) = String c r'.
Proof.
  simpl. destruct (Py.rstrip c r) as [|b r'].
  - rewrite Ascii.eqb_refl. by left.
  - right. eauto.
Qed.

Lemma rstrip_app_slash (c : ascii) (s : string) :
  Py.rstrip c (s +:+ String c "") = Py.rstrip c s.
Proof.
  induction s as [|a s IH].
  - change ("" +:+ String c "") with (String c ""). simpl.
    by rewrite Ascii.eqb_refl.
  - rewrite app_String. simpl. by rewrite IH.
Qed.

Lemma wf_rstrip (scheme netloc path query fragment : string) :
  wf_components scheme netloc path query fragment = true →
  wf_components scheme netloc (Py.rstrip "/" path) "" "" = true.
Proof.
  intros Hwf.
  destruct (wf_components_spec _ _ _ _ _ Hwf)
    as (Hscheme & Hnetloc & Hnone & Hpath & Hpnone & _).
  assert (Hrnone : none_of "?#;" (Py.rstrip "/" path) = true)
    by (by apply rstrip_all).
  unfold wf_components. rewrite Hnetloc, Hnone, Hrnone.
  assert (String.eqb scheme "http" || String.eqb scheme "https" = true) as ->
    by (by destruct Hscheme as [-> | ->]).
  destruct Hpath as [->|[r ->]]; [done|].
  destruct (rstrip_head "/" r) as [->|[r' ->]]; [done|].
  by destruct r'.
Qed.

(** The referrer the decorator rebuilds from a well-formed URL: scheme,
    network location and the path without its trailing slashes. *)
Lemma referer_url_wf (scheme netloc path query fragment : string) :
  wf_components scheme netloc path query fragment = true →
  referer_url (urlparse.mkParse scheme netloc path "" query fragment) =
  scheme +:+ "://" +:+ netloc +:+ Py.rstrip "/" path.
Proof.
  intros Hwf. unfold referer_url.
  cbn [urlparse.scheme urlparse.netloc urlparse.path].
  rewrite urlunparse_wf by (by eapply wf_rstrip).
  change (opt_part "?" "") with "". change (opt_part "#" "") with "".
  change ("" +:+ "") with "". by rewrite app_empty_r.
Qed.

Lemma allow_frame_wf (env : Env) (view_func : View) (request : HttpRequest)
    (scheme netloc path query fragment : string) :
  wf_components scheme netloc path query fragment = true →
  META request !! "HTTP_REFERER" =
    Some (urlparse.urlunparse scheme netloc path "" query fragment) →
  allow_frame_from_whitelisted_url env view_func request =
  Return (setitem (setitem (view_func request) "X-Frame-Options"
                     (chosen_headers env (scheme +:+ "://" +:+ netloc +:+
                                          Py.rstrip "/" path)).1)
            "Content-Security-Policy"
            (chosen_headers env (scheme +:+ "://" +:+ netloc +:+
                                 Py.rstrip "/" path)).2).
Proof.
  intros Hwf Href. unfold allow_frame_from_whitelisted_url, chosen_headers.
  rewrite Href, parse_rebuilt by done.
  destruct (ENABLE_THIRD_PARTY_AUTH (FEATURES (settings env))); [|done].
  cbn [rbind andb]. rewrite referer_url_wf by done.
  by destruct (Py.in_list _ _).
Qed.

Lemma chosen_headers_cases (env : Env) (referer_url0 : string) :
  let whitelisted :=
    ENABLE_THIRD_PARTY_AUTH (FEATURES (settings env)) = true ∧
    ∃ d, d ∈ SAMLProviderData_objects env ∧
         referer_url0 = Py.rstrip "/" (sso_url d) in
  let allowed_urls :=
    Py.join " " (THIRD_PARTY_AUTH_FRAME_ALLOWED_FROM_URL (settings env)) in
  (whitelisted ∧
   chosen_headers env referer_url0 =
     ("ALLOW-FROM " +:+ allowed_urls, "frame-ancestors " +:+ allowed_urls)) ∨
  (¬ whitelisted ∧
   chosen_headers env referer_url0 = ("DENY", "frame-ancestors 'none'")).
Proof.
  intros whitelisted allowed_urls. unfold whitelisted, chosen_headers.
  destruct (ENABLE_THIRD_PARTY_AUTH (FEATURES (settings env))); simpl.
  2:{ right. split; [|done]. by intros [? _]. }
  destruct (Py.in_list _ _) eqn:Hin.
  - left. split; [|done]. split; [done|].
    apply in_list_spec in Hin. rewrite map_map in Hin.
    apply list_elem_of_fmap in Hin as (d & Heq & Hd). eauto.
  - right. split; [|done]. intros (_ & d & Hd & Heq).
    assert (Py.in_list referer_url0
              (map (λ u, Py.rstrip "/" u) (map sso_url (SAMLProviderData_objects env))) = true);
      [|congruence].
    apply in_list_spec. rewrite map_map. apply list_elem_of_fmap. eauto.
Qed.

(** For a well-formed http or https referrer
    [scheme://netloc/path?query#fragment] the whitelisted-URL decorator
    returns, and allows framing exactly when the flag is on and
    [scheme://netloc/path] without trailing slashes is the sign-on URL of
    some provider without its trailing slashes; otherwise it denies. *)
Theorem wellformed_referer_allowed_iff (env : Env) (view_func : View)
    (request : HttpRequest) (scheme netloc path query fragment : string) :
  wf_components scheme netloc path query fragment = true →
  META request !! "HTTP_REFERER" =
    Some (urlparse.urlunparse scheme netloc path "" query fragment) →
  let whitelisted :=
    ENABLE_THIRD_PARTY_AUTH (FEATURES (settings env)) = true ∧
    ∃ d, d ∈ SAMLProviderData_objects env ∧
         scheme +:+ "://" +:+ netloc +:+ Py.rstrip "/" path =
         Py.rstrip "/" (sso_url d) in
  let allowed_urls :=
    Py.join " " (THIRD_PARTY_AUTH_FRAME_ALLOWED_FROM_URL (settings env)) in
  ∃ resp,
    allow_frame_from_whitelisted_url env view_func request = Return resp ∧
    ((whitelisted ∧
      getitem resp "X-Frame-Options" = Some ("ALLOW-FROM " +:+ allowed_urls) ∧
      getitem resp "Content-Security-Policy" =
        Some ("frame-ancestors " +:+ allowed_urls)) ∨
     (¬ whitelisted ∧
      getitem resp "X-Frame-Options" = Some "DENY" ∧
      getitem resp "Content-Security-Policy" = Some "frame-ancestors 'none'")).
Proof.
  intros Hwf Href whitelisted allowed_urls.
  eexists.
  split; [by apply (allow_frame_wf _ _ _ scheme netloc path query fragment)|].
  rewrite getitem_setitem_ne by (rewrite lower_xfo, lower_csp; discriminate).
  rewrite !getitem_setitem_eq.
  destruct (chosen_headers_cases env
              (scheme +:+ "://" +:+ netloc +:+ Py.rstrip "/" path))
    as [[Hw ->] | [Hw ->]]; [left | right]; done.
Qed.

Lemma wellformed_referer_allowed_iff_witness :
  ∃ resp,
    allow_frame_from_whitelisted_url (sample_env true) sample_view
      (request_from (Some "http://idp.example.com/sso//?SAMLRequest=abc#top")) =
      Return resp ∧
    getitem resp "X-Frame-Options" =
      Some "ALLOW-FROM https://portal.example.com https://lms.example.com".
Proof.
  destruct (wellformed_referer_allowed_iff (sample_env true) sample_view
              (request_from (Some "http://idp.example.com/sso//?SAMLRequest=abc#top"))
              "http" "idp.example.com" "/sso//" "SAMLRequest=abc" "top"
              eq_refl eq_refl)
    as (resp & Hrun & [(_ & Hxfo & _) | (Hnot & _)]).
  - exists resp. split; [exact Hrun | exact Hxfo].
  - exfalso. apply Hnot. split; [reflexivity|].
    exists (mkSAML "http://idp.example.com/sso/"). split; [|reflexivity].
    apply list_elem_of_here.
Defined.

(** Two well-formed referrers with the same scheme and network location
    whose paths differ in trailing slashes only get the same framing
    headers, whatever their query strings and fragments are. *)
Theorem stripped_parts_irrelevant (env : Env) (view_func : View)
    (request1 request2 : HttpRequest)
    (scheme netloc path1 query1 fragment1 path2 query2 fragment2 : string) :
  wf_components scheme netloc path1 query1 fragment1 = true →
  wf_components scheme netloc path2 query2 fragment2 = true →
  Py.rstrip "/" path1 = Py.rstrip "/" path2 →
  META request1 !! "HTTP_REFERER" =
    Some (urlparse.urlunparse scheme netloc path1 "" query1 fragment1) →
  META request2 !! "HTTP_REFERER" =
    Some (urlparse.urlunparse scheme netloc path2 "" query2 fragment2) →
  ∃ resp1 resp2,
    allow_frame_from_whitelisted_url env view_func request1 = Return resp1 ∧
    allow_frame_from_whitelisted_url env view_func request2 = Return resp2 ∧
    getitem resp1 "X-Frame-Options" = getitem resp2 "X-Frame-Options" ∧
    getitem resp1 "Content-Security-Policy" =
      getitem resp2 "Content-Security-Policy".
Proof.
  intros Hwf1 Hwf2 Hpath Href1 Href2.
  eexists _, _.
  split; [by apply (allow_frame_wf _ _ _ scheme netloc path1 query1 fragment1)|].
  split; [by apply (allow_frame_wf _ _ _ scheme netloc path2 query2 fragment2)|].
  rewrite Hpath.
  rewrite !(getitem_setitem_ne _ "Content-Security-Policy" "X-Frame-Options")
    by (rewrite lower_xfo, lower_csp; discriminate).
  by rewrite !getitem_setitem_eq.
Qed.

Lemma stripped_parts_irrelevant_witness :
  ∃ resp1 resp2,
    allow_frame_from_whitelisted_url (sample_env true) sample_view
      (request_from (Some "https://idp.example.com/sso/?a=1#x")) = Return resp1 ∧
    allow_frame_from_whitelisted_url (sample_env true) sample_view
      (request_from (Some "https://idp.example.com/sso///#y")) = Return resp2 ∧
    getitem resp1 "X-Frame-Options" = getitem resp2 "X-Frame-Options" ∧
    getitem resp1 "Content-Security-Policy" =
      getitem resp2 "Content-Security-Policy".
Proof.
  apply (stripped_parts_irrelevant (sample_env true) sample_view
           (request_from (Some "https://idp.example.com/sso/?a=1#x"))
           (request_from (Some "https://idp.example.com/sso///#y"))
           "https" "idp.example.com" "/sso/" "a=1" "x" "/sso///" "" "y");
    reflexivity.
Defined.

(** Trailing slashes on configured sign-on URLs make no difference: adding
    a slash to the sign-on URL of any rows leaves the outcome of the
    decorator unchanged on every request. *)
Theorem sso_url_trailing_slash_irrelevant (env : Env) (view_func : View)
    (request : HttpRequest) (slashed : SAMLProviderData → bool) :
  allow_frame_from_whitelisted_url
    (with_saml env
       (map (fun d => if slashed d then mkSAML (sso_url d +:+ "/") else d)
            (SAMLProviderData_objects env)))
    view_func request =
  allow_frame_from_whitelisted_url env view_func request.
Proof.
  unfold allow_frame_from_whitelisted_url, with_saml.
  cbn [settings SAMLProviderData_objects].
  rewrite !map_map.
  assert (Hmap :
    map (λ d, Py.rstrip "/"
                (sso_url (if slashed d then mkSAML (sso_url d +:+ "/") else d)))
        (SAMLProviderData_objects env) =
    map (λ d, Py.rstrip "/" (sso_url d)) (SAMLProviderData_objects env)).
  { apply map_ext. intros d. destruct (slashed d); [|done].
    cbn [sso_url]. apply rstrip_app_slash. }
  by rewrite Hmap.
Qed.

(** The hostname-based decorator looks at the network location of a
    well-formed referrer only: two such referrers with the same network
    location get the same X-Frame-Options, whatever their schemes, paths,
    query strings and fragments are. *)
Theorem xframe_depends_on_netloc_only (env : Env) (view_func : View)
    (request1 request2 : HttpRequest)
    (netloc scheme1 path1 query1 fragment1 scheme2 path2 query2 fragment2 : string) :
  wf_components scheme1 netloc path1 query1 fragment1 = true →
  wf_components scheme2 netloc path2 query2 fragment2 = true →
  META request1 !! "HTTP_REFERER" =
    Some (urlparse.urlunparse scheme1 netloc path1 "" query1 fragment1) →
  META request2 !! "HTTP_REFERER" =
    Some (urlparse.urlunparse scheme2 netloc path2 "" query2 fragment2) →
  ∃ resp1 resp2,
    xframe_allow_whitelisted env view_func request1 = Return resp1 ∧
    xframe_allow_whitelisted env view_func request2 = Return resp2 ∧
    getitem resp1 "X-Frame-Options" = getitem resp2 "X-Frame-Options".
Proof.
  intros Hwf1 Hwf2 Href1 Href2. unfold xframe_allow_whitelisted.
  rewrite Href1, Href2, !parse_rebuilt by done.
  destruct (ENABLE_THIRD_PARTY_AUTH (FEATURES (settings env))); cbn [rbind].
  - unfold urlparse.hostname. cbn [urlparse.netloc].
    destruct (lti_exists env _); eexists _, _;
      (split; [reflexivity|]); (split; [reflexivity|]);
      by rewrite !getitem_setitem_eq.
  - eexists _, _. split; [reflexivity|]. split; [reflexivity|].
    by rewrite !getitem_setitem_eq.
Qed.

Lemma xframe_depends_on_netloc_only_witness :
  ∃ resp1 resp2,
    xframe_allow_whitelisted (sample_env true) sample_view
      (request_from (Some "https://LTI.example.com/launch?id=7")) = Return resp1 ∧
    xframe_allow_whitelisted (sample_env true) sample_view
      (request_from (Some "http://LTI.example.com/other/#frag")) = Return resp2 ∧
    getitem resp1 "X-Frame-Options" = getitem resp2 "X-Frame-Options".
Proof.
  apply (xframe_depends_on_netloc_only (sample_env true) sample_view
           (request_from (Some "https://LTI.example.com/launch?id=7"))
           (request_from (Some "http://LTI.example.com/other/#frag"))
           "LTI.example.com" "https" "/launch" "id=7" "" "http" "/other/" "" "frag");
    reflexivity.
Defined.
